(** * slag: the web layer of the Slack archive (app.py)

    A shallow embedding of [WebServer] and of the properties its routes
    promise about the archive engine behind them.

    The handlers of app.py are translated one by one into a small
    state-and-exception monad over a [World]: the token store, the archive
    database, the [z_*] log collections of [self.mongo.db] and a ghost
    [trace] recording, in program order, every call the handlers make into
    their collaborators.  The collaborators themselves ([store.TokenStore],
    [slack_archive.SlackArchive], [slacker.Slacker], the file system and
    the Python builtin [int]) are not part of app.py; they are taken as an
    interface, [Backend], and every theorem about the handlers holds for
    every implementation of that interface. *)

From Stdlib Require Import ZArith List String Ascii Bool Lia.
From stdpp Require Import base option list strings gmap pretty.

Local Open Scope string_scope.
Local Open Scope Z_scope.
Local Open Scope list_scope.

(** ** Strings *)

(** [s.count(c)] for a one-character needle. *)
Fixpoint str_count (c : ascii) (s : string) : Z :=
  match s with
  | EmptyString => 0
  | String d s' => (if Ascii.eqb c d then 1 else 0) + str_count c s'
  end.

(** [s.replace(old, new, 1)]: the leftmost occurrence only. *)
Fixpoint replace_first (old new s : string) : string :=
  if String.prefix old s
  then new +:+ String.substring (String.length old)
                 (String.length s - String.length old) s
  else match s with
       | EmptyString => EmptyString
       | String c s' => String c (replace_first old new s')
       end.

(** [s[1:]] *)
Definition tail_str (s : string) : string :=
  match s with
  | EmptyString => EmptyString
  | String _ s' => s'
  end.

(** [s.endswith(suffix)] *)
Definition endswith (s suffix : string) : bool :=
  let n := String.length s in
  let k := String.length suffix in
  (k <=? n)%nat && String.eqb (String.substring (n - k) k s) suffix.

(** [str(n)] for an integer. *)
Definition str_int (n : Z) : string := pretty n.

(** ** Documents, requests and responses *)

Inductive Field :=
| FTime (t : Z)
| FStr (s : string).

(** A document handed to [insert_one]: its keys in source order. *)
Definition Doc := list (string * Field).

(** What [self.tokens[key]] yields, as far as app.py looks into it. *)
Record UserInfo := mkUser {
  login : string;
  full_access : bool
}.

(** The body of a successful [auth.test] call. *)
Record ApiAuth := mkApiAuth {
  team_id : string;
  team : string;
  user : string
}.

(** The body of a successful [oauth.access] call. *)
Record OAuth := mkOAuth {
  access_token : string;
  scope : string
}.

(** An uploaded file of [flask.request.files]. *)
Record Upload := mkUpload {
  filename : string;
  content : string
}.

Record Request := mkRequest {
  path : string;
  url : string;
  is_secure : bool;
  args : gmap string string;
  cookies : gmap string string;
  headers : gmap string string;
  files : gmap string Upload
}.

(** [flask.request.args.get(key, '')] *)
Definition arg (r : Request) (key : string) : string :=
  default EmptyString (args r !! key).

(** Python exceptions escaping a handler. *)
Inductive Exc :=
| KeyError (key : option string)
| ValueError (text : string)
| NotFound
| ApiFailure.

(** Outcome of a call into the Slack client: the library's own [Error],
    any other exception, or the response body. *)
Inductive ApiResult (A : Type) :=
| ApiOk (body : A)
| ApiError (msg : string)
| ApiCrash.
Arguments ApiOk {A} body.
Arguments ApiError {A} msg.
Arguments ApiCrash {A}.

(** Calls into the collaborators, as the ghost trace records them. *)
Inductive Event :=
| TokensIsKnown (key : option string)
| TokensGet (key : option string)
| TokensUpsert (token : string) (who : ApiAuth) (fa : bool)
| TokensDel (key : option string)
| LogInsert (coll : string) (doc : Doc)
| HasStreamAccess (u : UserInfo) (s : string) (granted : bool)
| FilterStreams (u : UserInfo) (f : string)
| FindMessages (q : string) (ids : list string) (p : Z)
| FindMessagesInStream (q s : string) (p : Z)
| FindMessagesAround (c s : string) (p : Z)
| StreamMessages (s : string) (p : Z)
| UsersList (domain : option string)
| Stat
| ImportArchive
| StreamsFetch (token : string)
| OauthAccess (code redirect_uri : string)
| AuthTest (token : string)
| SetCookie (name value : string)
| DeleteCookie (name : string)
| SaveArchive (name : string).

(** Process configuration: the module constants read from [os.environ]
    and the name the module runs under. *)
Record Config := mkConfig {
  module_name : string;
  DEBUG_SERVER : option string;
  SLACK_CLIENT_ID : string;
  SLACK_CLIENT_SECRET : string;
  SLACK_TEAM_ID : string
}.

(** The collaborators of app.py that live outside it. *)
Record Backend := mkBackend {
  token_db : Type;
  archive_db : Type;
  stream_doc : Type;
  message : Type;
  import_report : Type;
  (* store.TokenStore *)
  is_known_user : token_db -> option string -> bool;
  tokens_getitem : token_db -> option string -> option UserInfo;
  tokens_upsert : token_db -> string -> ApiAuth -> bool -> token_db * string;
  tokens_delitem : token_db -> option string -> option token_db;
  (* slack_archive.SlackArchive *)
  stream_id : stream_doc -> string;
  has_stream_access : archive_db -> UserInfo -> string -> bool;
  filter_streams : archive_db -> UserInfo -> string ->
                   list stream_doc * list stream_doc * list stream_doc * string;
  find_messages : archive_db -> string -> list string -> Z -> list message * Z;
  find_messages_in_stream : archive_db -> string -> string -> Z -> list message * Z;
  find_messages_around : archive_db -> string -> string -> Z -> list message * Z;
  stream_messages : archive_db -> string -> Z -> list message * Z;
  users_list : archive_db -> option string -> string;
  stat : archive_db -> list (string * Z);
  import_archive : archive_db -> archive_db * (import_report * list string);
  streams_fetch : archive_db -> string -> archive_db;
  str_report : import_report -> string;
  str_types : list string -> string;
  MESSAGES_NUMBER_PER_SEARCH_REQUEST : Z;
  MESSAGES_NUMBER_PER_STREAM_REQUEST : Z;
  (* slacker.Slacker *)
  oauth_access : string -> string -> string -> string -> ApiResult OAuth;
  auth_test : string -> ApiResult ApiAuth;
  (* flask, os and the builtins *)
  parse_int : string -> option Z;
  flask_url_for : string -> string;
  isfile_static : string -> bool;
  read_static : string -> option string
}.

(** A double quote, and an attribute value in double quotes: the markup
    literals of app.py are spelled with these. *)
Definition dq : string := String "034"%char EmptyString.
Definition qt (s : string) : string := dq +:+ s +:+ dq.

Section WebServer.

Variable B : Backend.
Variable cfg : Config.

(** ** The world the handlers run in *)

Record World := mkWorld {
  tokens : token_db B;               (* self.tokens, over mongo.db.tokens *)
  archive : archive_db B;            (* self.archive, the canonical collections *)
  logs : gmap string (list Doc);     (* mongo.db.z_search, z_browse, ... *)
  clock : Z;                         (* time.time(), kept as an opaque reading *)
  local_archive : option Upload;     (* slack_archive.LOCAL_ARCHIVE_FILE *)
  trace : list Event                 (* ghost: collaborator calls so far *)
}.

Inductive Body :=
| SearchBlank (results : list (message B))
| SearchPage (results : list (message B)) (total : Z) (q s c : string) (p n : Z)
| BrowsePage (channels groups ims : list (stream_doc B)) (f : string)
             (advanced_user : bool)
| StreamPage (results : list (message B)) (total : Z) (s : string) (p n : Z)
| BasicPage (title html : string)
| RedirectPage (url_to msg : string)
| Redirect (location : string) (code : Z)
| Raw (text : string).

Inductive CookieOp :=
| CookieSet (name value : string) (expires : Z)
| CookieDelete (name : string).

Record Response := mkResponse {
  body : Body;
  cookie_ops : list CookieOp
}.

Definition plain (b : Body) : Response := mkResponse b [].

(** ** Handlers as state-and-exception computations *)

Definition M (A : Type) : Type := World -> (Exc + A) * World.

Definition ret {A} (a : A) : M A := fun w => (inr a, w).

Definition raise {A} (e : Exc) : M A := fun w => (inl e, w).

Definition bind {A C} (m : M A) (k : A -> M C) : M C :=
  fun w => match m w with
           | (inl e, w') => (inl e, w')
           | (inr a, w') => k a w'
           end.

Notation "x <- m ;; k" := (bind m (fun x => k))
  (at level 100, m at next level, right associativity).
Notation "m ;;; k" := (bind m (fun _ => k))
  (at level 100, right associativity).

Definition emit (ev : Event) : M unit :=
  fun w => (inr tt,
            mkWorld (tokens w) (archive w) (logs w) (clock w)
                    (local_archive w) (trace w ++ [ev])).

(** [time.time()] *)
Definition time_time : M Z := fun w => (inr (clock w), w).

(** [self.mongo.db.<coll>.insert_one(doc)] *)
Definition insert_one (coll : string) (doc : Doc) : M unit :=
  fun w => (inr tt,
            mkWorld (tokens w) (archive w)
                    (<[coll := default [] (logs w !! coll) ++ [doc]]> (logs w))
                    (clock w) (local_archive w)
                    (trace w ++ [LogInsert coll doc])).

(** [self.tokens[key]] *)
Definition tokens_get (key : option string) : M UserInfo :=
  emit (TokensGet key) ;;;
  fun w => match tokens_getitem B (tokens w) key with
           | Some u => (inr u, w)
           | None => (inl (KeyError key), w)
           end.

(** [self.tokens.is_known_user(key)] *)
Definition tokens_known (key : option string) : M bool :=
  emit (TokensIsKnown key) ;;;
  fun w => (inr (is_known_user B (tokens w) key), w).

(** Reads of the archive: the call is traced, the database is unchanged. *)
Definition archive_read {A} (ev : A -> Event) (f : archive_db B -> A) : M A :=
  fun w => let a := f (archive w) in
           (inr a,
            mkWorld (tokens w) (archive w) (logs w) (clock w)
                    (local_archive w) (trace w ++ [ev a])).

(** Calls that change the archive. *)
Definition archive_write {A} (ev : Event) (f : archive_db B -> archive_db B * A)
  : M A :=
  fun w => let '(db, a) := f (archive w) in
           (inr a,
            mkWorld (tokens w) db (logs w) (clock w)
                    (local_archive w) (trace w ++ [ev])).

(** A computation that does not look at the world. *)
Definition lift {A} (x : Exc + A) : M A := fun w => (x, w).

(** [int(flask.request.args.get(key, 0))] *)
Definition int_arg (r : Request) (key : string) : Exc + Z :=
  match args r !! key with
  | None => inr 0
  | Some s => match parse_int B s with
              | Some n => inr n
              | None => inl (ValueError s)
              end
  end.

(** [WebServer.report_access_denied] *)
Definition report_access_denied (r : Request) : M Response :=
  user_info <- tokens_get (cookies r !! "auth") ;;
  t <- time_time ;;
  insert_one "z_access" [("_id", FTime t);
                         ("user", FStr (login user_info));
                         ("page", FStr (url r))] ;;;
  ret (plain (BasicPage "Access denied"
         ("<div class=" +:+ qt "jumbotron" +:+ " align=" +:+ qt "center" +:+ ">" +:+
          "  <h1>Access denied</h1>" +:+
          "</div>"))).

(** [WebServer.search]: search everywhere, in a stream, or by context. *)
Definition search (r : Request) : M Response :=
  user <- tokens_get (cookies r !! "auth") ;;
  let query := arg r "q" in
  let stream := arg r "s" in
  let context := arg r "c" in
  page <- lift (int_arg r "p") ;;
  t <- time_time ;;
  insert_one "z_search" [("_id", FTime t);
                         ("user", FStr (login user));
                         ("q", FStr query)] ;;;
  let results := [] in
  if String.eqb query EmptyString then ret (plain (SearchBlank results))
  else
    denied <- (if negb (String.eqb stream EmptyString)
               then ok <- archive_read (HasStreamAccess user stream)
                            (fun db => has_stream_access B db user stream) ;;
                    ret (negb ok)
               else ret false) ;;
    if denied : bool then report_access_denied r
    else
      found <- (if negb (String.eqb context EmptyString)
                then archive_read (fun _ => FindMessagesAround context stream page)
                       (fun db => find_messages_around B db context stream page)
                else if negb (String.eqb stream EmptyString)
                then archive_read (fun _ => FindMessagesInStream query stream page)
                       (fun db => find_messages_in_stream B db query stream page)
                else
                  streams <- archive_read (fun _ => FilterStreams user "all")
                               (fun db => filter_streams B db user "all") ;;
                  let '(public, private, direct, _) := streams in
                  let streams_list := public ++ private ++ direct in
                  let stream_ids := map (stream_id B) streams_list in
                  archive_read (fun _ => FindMessages query stream_ids page)
                    (fun db => find_messages B db query stream_ids page)) ;;
      let '(results, msg_count) := found in
      ret (plain (SearchPage results msg_count query stream context page
                    (MESSAGES_NUMBER_PER_SEARCH_REQUEST B))).

(** [WebServer.browse] *)
Definition browse (r : Request) : M Response :=
  user_info <- tokens_get (cookies r !! "auth") ;;
  let stream := arg r "s" in
  page <- lift (int_arg r "p") ;;
  t <- time_time ;;
  insert_one "z_browse" [("_id", FTime t);
                         ("user", FStr (login user_info));
                         ("s", FStr stream)] ;;;
  if String.eqb stream EmptyString then
    let filter_name := default "my" (args r !! "filter") in
    listing <- archive_read (fun _ => FilterStreams user_info filter_name)
                 (fun db => filter_streams B db user_info filter_name) ;;
    let '(public, private, direct, filter_name) := listing in
    ret (plain (BrowsePage public private direct filter_name
                  (full_access user_info)))
  else
    ok <- archive_read (HasStreamAccess user_info stream)
            (fun db => has_stream_access B db user_info stream) ;;
    if negb ok then report_access_denied r
    else
      found <- archive_read (fun _ => StreamMessages stream page)
                 (fun db => stream_messages B db stream page) ;;
      let '(results, streams_cnt) := found in
      ret (plain (StreamPage results streams_cnt stream page
                    (MESSAGES_NUMBER_PER_STREAM_REQUEST B))).

(** [WebServer._is_forced_debug] and [WebServer.is_production] *)
Definition _is_forced_debug : bool :=
  String.eqb (default "0" (DEBUG_SERVER cfg)) "1".

Definition is_production : bool :=
  String.eqb (module_name cfg) "app" || _is_forced_debug.

(** [WebServer.url_for] *)
Definition url_for (endpoint : string) : string :=
  let url := flask_url_for B endpoint in
  if is_production then replace_first "http://" "https://" url else url.

Definition _redirect_page (url_to msg : string) : Response :=
  plain (RedirectPage url_to msg).

Definition _basic_page (title html : string) : Response :=
  plain (BasicPage title html).

(** [WebServer.cookies_expire_date]: now plus one year; the formatting of
    the date is left out. *)
Definition cookies_expire_date : M Z :=
  t <- time_time ;; ret (t + 365 * 24 * 60 * 60).

(** [WebServer.send_file] *)
Definition send_file (name : string) : M Response :=
  match read_static B name with
  | Some text => ret (plain (Raw text))
  | None => raise NotFound
  end.

(** [WebServer.users] *)
Definition users (r : Request) : M Response :=
  let domain := args r !! "domain" in
  text <- archive_read (fun _ => UsersList domain)
            (fun db => users_list B db domain) ;;
  ret (plain (Raw text)).

(** [WebServer.index] *)
Definition index (r : Request) : M Response :=
  known <- tokens_known (cookies r !! "auth") ;;
  if known : bool then ret (plain (Redirect "/browse" 302))
  else ret (_redirect_page "/login" "Auth required").

(** [WebServer.stat] *)
Definition stat_page (r : Request) : M Response :=
  st <- archive_read (fun _ => Stat) (stat B) ;;
  ret (_basic_page "Statistics"
         ("<div class=" +:+ qt "col-md-6" +:+ ">" +:+
          " <div class=" +:+ qt "panel panel-default" +:+
            " align=" +:+ qt "center" +:+ ">" +:+
          "  <div class=" +:+ qt "panel-heading" +:+ ">" +:+
          "   <h3 class=" +:+ qt "panel-title" +:+ ">Statistics</h3>" +:+
          "  </div>" +:+
          "  <table class=" +:+ qt "table" +:+ ">" +:+
          String.concat EmptyString
            (map (fun param : string * Z =>
                    "<tr><th>" +:+ fst param +:+ "</th><td>" +:+
                    str_int (snd param) +:+ "</td></tr>") st) +:+
          "  </table>" +:+
          " </div>" +:+
          "</div>")).

Definition LOGIN_LINK : string :=
  "https://slack.com/oauth/authorize?team=" +:+ SLACK_TEAM_ID cfg +:+
  "&client_id=" +:+ SLACK_CLIENT_ID cfg +:+ "&scope=identify".

Definition TOKEN_LINK : string :=
  "https://slack.com/oauth/authorize?team=" +:+ SLACK_TEAM_ID cfg +:+
  "&client_id=" +:+ SLACK_CLIENT_ID cfg +:+ "&scope=identify,files:read," +:+
  "channels:read,channels:history,groups:history,groups:read," +:+
  "im:history,im:read,mpim:read,mpim:history,stars:read".

(** [WebServer._login_success] *)
Definition _login_success (token : string) (api_user_info : ApiAuth)
    (identity_only : bool) : M Response :=
  let response := Redirect "/browse" 302 in
  auth_key <- (emit (TokensUpsert token api_user_info (negb identity_only)) ;;;
               fun w =>
                 let '(db, key) := tokens_upsert B (tokens w) token api_user_info
                                     (negb identity_only) in
                 (inr key,
                  mkWorld db (archive w) (logs w) (clock w)
                          (local_archive w) (trace w))) ;;
  t <- time_time ;;
  insert_one "z_logins" [("_id", FTime t);
                         ("user", FStr (user api_user_info))] ;;;
  expires <- cookies_expire_date ;;
  emit (SetCookie "auth" auth_key) ;;;
  archive_write (StreamsFetch token)
    (fun db => (streams_fetch B db token, tt)) ;;;
  ret (mkResponse response [CookieSet "auth" auth_key expires]).

(** [WebServer._login_with_token] *)
Definition _login_with_token (token : string) (identity_only : bool)
  : M Response :=
  emit (AuthTest token) ;;;
  match auth_test B token with
  | ApiOk api_auth =>
      if String.eqb (team_id api_auth) (SLACK_TEAM_ID cfg)
      then _login_success token api_auth identity_only
      else ret (_basic_page "Wrong team" ("Wrong team: " +:+ team api_auth))
  | ApiError err =>
      t <- time_time ;;
      insert_one "z_errors" [("_id", FTime t);
                             ("ctx", FStr "auth.test");
                             ("msg", FStr err)] ;;;
      ret (_basic_page "Auth error" ("Auth error: " +:+ err))
  | ApiCrash => raise ApiFailure
  end.

(** [WebServer._login_oauth] *)
Definition _login_oauth (r : Request) : M Response :=
  let code := arg r "code" in
  let redirect_uri := url_for "login" in
  emit (OauthAccess code redirect_uri) ;;;
  match oauth_access B (SLACK_CLIENT_ID cfg) (SLACK_CLIENT_SECRET cfg)
          code redirect_uri with
  | ApiOk oauth =>
      let token := access_token oauth in
      let identity_only := str_count ","%char (scope oauth) =? 1 in
      _login_with_token token identity_only
  | ApiError err =>
      t <- time_time ;;
      insert_one "z_errors" [("_id", FTime t);
                             ("ctx", FStr "oauth");
                             ("msg", FStr err)] ;;;
      ret (_basic_page "OAuth error" ("OAuth error: " +:+ err))
  | ApiCrash => raise ApiFailure
  end.

(** [WebServer.login] *)
Definition login_page (r : Request) : M Response :=
  if negb (String.eqb (arg r "code") EmptyString) then _login_oauth r
  else
    let auth := "&redirect_uri=" +:+ url_for "login" in
    ret (_basic_page "Login"
           ("<div class=" +:+ qt "jumbotron" +:+ " align=" +:+ qt "center" +:+ ">" +:+
            "  <h1>You have to authenticate first:</h1>" +:+
            "  <a class=" +:+ qt "btn btn-default btn-lg" +:+
              " href=" +:+ qt (LOGIN_LINK +:+ auth) +:+ ">" +:+
            "    <img src=" +:+ qt "https://slack.com/favicon.ico" +:+
              " width=" +:+ qt "24" +:+ "/>" +:+
            "    Basic (public channels)" +:+
            "  </a>" +:+
            "  &nbsp;" +:+
            "  <a class=" +:+ qt "btn btn-default btn-lg" +:+
              " href=" +:+ qt (TOKEN_LINK +:+ auth) +:+ ">" +:+
            "    <img src=" +:+ qt "https://slack.com/favicon.ico" +:+
              " width=" +:+ qt "24" +:+ "/>" +:+
            "    Advanced (import private messaging)" +:+
            "  </a>" +:+
            "</div>")).

(** [WebServer.logout] *)
Definition logout (r : Request) : M Response :=
  let enc_key := cookies r !! "auth" in
  user_info <- tokens_get enc_key ;;
  t <- time_time ;;
  insert_one "z_logouts" [("_id", FTime t);
                          ("user", FStr (login user_info))] ;;;
  emit (DeleteCookie "auth") ;;;
  emit (TokensDel enc_key) ;;;
  fun w => match tokens_delitem B (tokens w) enc_key with
           | Some db =>
               (inr (mkResponse (RedirectPage "https://slack.com" "Bye")
                       [CookieDelete "auth"]),
                mkWorld db (archive w) (logs w) (clock w)
                        (local_archive w) (trace w))
           | None => (inl (KeyError enc_key), w)
           end.

Definition upload_form : string :=
  "<form action=" +:+ qt EmptyString +:+ " method=" +:+ qt "POST" +:+
    " enctype=" +:+ qt "multipart/form-data" +:+ ">" +:+
  " <div class=" +:+ qt "input-group input-group-lg col-md-7" +:+
    " align=" +:+ qt "center" +:+ ">" +:+
  "  <span class=" +:+ qt "input-group-addon" +:+ ">Select .zip archive</span>" +:+
  "   <input type=" +:+ qt "file" +:+ " name=" +:+ qt "archive" +:+
    " class=" +:+ qt "form-control" +:+ "/>" +:+
  "   <span class=" +:+ qt "input-group-btn" +:+ ">" +:+
  "    <input type=" +:+ qt "submit" +:+ " class=" +:+ qt "btn btn-primary" +:+
    " value=" +:+ qt "Import" +:+ "/>" +:+
  "   </span>" +:+
  "  </span>" +:+
  " </div>" +:+
  "</form>".

(** [WebServer.upload] *)
Definition upload (r : Request) : M Response :=
  if is_production then ret (_redirect_page "/browse" "Access denied")
  else
    match files r !! "archive" with
    | Some zip =>
        if endswith (filename zip) ".zip" then
          (emit (SaveArchive (filename zip)) ;;;
           fun w => (inr (_redirect_page "/import_db"
                            (filename zip +:+ " saved")),
                     mkWorld (tokens w) (archive w) (logs w) (clock w)
                             (Some zip) (trace w)))
        else ret (_basic_page "Archive upload" upload_form)
    | None => ret (_basic_page "Archive upload" upload_form)
    end.

(** [WebServer.import_db] *)
Definition import_db (r : Request) : M Response :=
  if is_production then ret (_redirect_page "/browse" "Access denied")
  else
    out <- archive_write ImportArchive (import_archive B) ;;
    let '(result, types_new) := out in
    ret (_basic_page "Archive import complete"
           ("Import complete!<br />" +:+ str_report B result +:+ "<br/>" +:+
            str_types B types_new)).

(** [WebServer._redirect_to_https]: [None] lets the request through. *)
Definition _redirect_to_https (r : Request) : M (option Response) :=
  let is_http :=
    is_secure r ||
    bool_decide (headers r !! "X-Forwarded-Proto" = Some "http") in
  if is_http && is_production
  then ret (Some (plain (Redirect (replace_first "http://" "https://" (url r)) 301)))
  else ret None.

(** [WebServer._check_auth] *)
Definition _check_auth (r : Request) : M (option Response) :=
  known <- tokens_known (cookies r !! "auth") ;;
  if known : bool then ret None
  else if String.eqb (path r) "/login" || isfile_static B (tail_str (path r))
  then ret None
  else ret (Some (_redirect_page "/login" "Auth required")).

(** The rules hooked by [FlaskExt._hook_routes]: fixed paths are matched
    before the catch-all [/<path:filename>].  Request methods are not
    modelled. *)
Definition route (r : Request) : M Response :=
  let p := path r in
  if String.eqb p "/" then index r
  else if String.eqb p "/users" then users r
  else if String.eqb p "/stat" then stat_page r
  else if String.eqb p "/login" then login_page r
  else if String.eqb p "/logout" then logout r
  else if String.eqb p "/search" then search r
  else if String.eqb p "/browse" then browse r
  else if String.eqb p "/import" then upload r
  else if String.eqb p "/import_db" then import_db r
  else send_file (tail_str p).

(** One request through the application: the [before_request] functions in
    the order [__init__] registers them, the first response any of them
    returns being final, then the view. *)
Definition handle (r : Request) : M Response :=
  early <- _redirect_to_https r ;;
  match early with
  | Some resp => ret resp
  | None =>
      early <- _check_auth r ;;
      match early with
      | Some resp => ret resp
      | None => route r
      end
  end.

End WebServer.

(** * The archive engine behind the web layer

    slack_archive.py is not among the sources; the two engine components
    below are written down from the specification (sections 3, 4.1 and 4.3),
    in its vocabulary. *)

Module ArchiveCore.

(** Modelled from the spec: the three stream kinds of section 3 (the stream
    documents of slack_archive.py are missing). *)
Inductive Kind := PublicChannel | PrivateGroup | DirectMessage.

(** Modelled from the spec: the Stream entity of section 3 (slack_archive's
    stream documents are missing); the id is the key of the collection. *)
Record Stream := mkStream {
  kind : Kind;
  name : string;
  members : list string;
  last_synced : Z
}.

(** Modelled from the spec: the User entity of section 3 together with the
    credential scope borrowed for the call (store.py and slack_archive.py
    are missing). *)
Record User := mkUser' {
  uid : string;
  display_name : string;
  email_domain : string;
  memberships : gset string;
  scope_full_access : bool
}.

(** Modelled from the spec: the enumerated filter names of section 4.3
    (their list in slack_archive.py is missing); sections 4.3 and 9 name
    my and all. *)
Inductive Filter := My | All.

(** Modelled from the spec: normalisation of the filter name of section 4.3
    (missing from the sources); anything unrecognised or absent resolves to
    the default, which the web layer names as my. *)
Definition resolve_filter (f : option string) : Filter :=
  match f with
  | Some f' => if String.eqb f' "all" then All else My
  | None => My
  end.

(** Modelled from the spec: the resolved name handed back to the caller
    (section 4.3; missing from the sources). *)
Definition filter_name (f : Filter) : string :=
  match f with My => "my" | All => "all" end.

(** Modelled from the spec: the visibility rule of section 4.3 (the
    deciding code of slack_archive.py is missing): a public channel is
    visible to every authenticated user; a private group or a direct
    message only to a member whose scope grants content access. *)
Definition visible (u : User) (id : string) (st : Stream) : bool :=
  match kind st with
  | PublicChannel => true
  | PrivateGroup | DirectMessage =>
      bool_decide (id ∈ memberships u) && scope_full_access u
  end.

(** Modelled from the spec: [hasStreamAccess] of section 4.3
    (slack_archive.has_stream_access is missing). *)
Definition hasStreamAccess (streams : gmap string Stream) (u : User)
    (id : string) : bool :=
  match streams !! id with
  | Some st => visible u id st
  | None => false
  end.

(** Modelled from the spec: the partition a stream of a given kind falls
    into (section 4.3; missing from the sources). *)
Definition is_kind (k : Kind) (st : Stream) : bool :=
  match k, kind st with
  | PublicChannel, PublicChannel
  | PrivateGroup, PrivateGroup
  | DirectMessage, DirectMessage => true
  | _, _ => false
  end.

(** Modelled from the spec: which streams a filter lists (missing from the
    sources).  For my the spec leaves open whether public channels the
    user has not joined are listed; [joined_only] is that policy choice. *)
Definition listed (joined_only : bool) (f : Filter) (u : User)
    (id : string) (st : Stream) : bool :=
  visible u id st &&
  match f with
  | All => true
  | My => bool_decide (id ∈ memberships u)
          || is_kind PublicChannel st && negb joined_only
  end.

(** Modelled from the spec: one of the three partitions [filterStreams]
    returns (section 4.3; missing from the sources). *)
Definition partition_of (joined_only : bool) (f : Filter) (u : User)
    (k : Kind) (streams : gmap string Stream) : list (string * Stream) :=
  List.filter (fun p => is_kind k (snd p) && listed joined_only f u (fst p) (snd p))
    (map_to_list streams).

(** Modelled from the spec: [filterStreams] of section 4.3
    (slack_archive.filter_streams is missing): the three partitions by
    kind and the resolved filter name. *)
Definition filterStreams (joined_only : bool) (streams : gmap string Stream)
    (u : User) (f : option string)
  : list (string * Stream) * list (string * Stream) * list (string * Stream)
    * string :=
  let rf := resolve_filter f in
  (partition_of joined_only rf u PublicChannel streams,
   partition_of joined_only rf u PrivateGroup streams,
   partition_of joined_only rf u DirectMessage streams,
   filter_name rf).

(** The stream ids of the three partitions. *)
Definition partition_ids
    (parts : list (string * Stream) * list (string * Stream)
             * list (string * Stream) * string) : list string :=
  let '(public, private, direct, _) := parts in
  map fst (public ++ private ++ direct).

(** ** ImportPipeline *)

(** Modelled from the spec: the Message entity of section 3; its key is
    the pair of stream id and send timestamp. *)
Record Message := mkMessage {
  author : string;
  body_text : string;
  subtype : string;
  thread : option string
}.

(** Modelled from the spec: one entry of an export archive (section 6): a
    message record, or an entry that does not parse. *)
Inductive Entry :=
| Parsed (stream ts : string) (m : Message)
| Malformed (raw : string).

(** Modelled from the spec: the ImportBatch audit record of section 3. *)
Record ImportBatch := mkBatch {
  source : string;
  inserted : nat;
  skipped : nat;
  malformed : nat;
  new_subtypes : list string
}.

(** Modelled from the spec: the Messages and ImportBatches collections of
    the canonical store (the merge of users and streams is left out). *)
Record Store := mkStore {
  Messages : gmap (string * string) Message;
  ImportBatches : list ImportBatch
}.

(** Modelled from the spec: the running state of one import (section 4.1:
    the collection and the counts of the batch being built; missing from
    the sources). *)
Record Progress := mkProgress {
  p_messages : gmap (string * string) Message;
  p_inserted : nat;
  p_skipped : nat;
  p_malformed : nat;
  p_fresh : list string
}.

(** Modelled from the spec: tracking of subtypes not seen in any prior
    batch (section 4.1; missing from the sources). *)
Definition note_subtype (known fresh : list string) (t : string) : list string :=
  if bool_decide (t ∈ known ++ fresh) then fresh else fresh ++ [t].

(** Modelled from the spec: the idempotent upsert of one entry (section
    4.1): an existing key is left alone and counted as skipped, a new one is
    inserted and counted; a malformed entry is counted and passed over. *)
Definition import_entry (known : list string) (acc : Progress) (e : Entry)
  : Progress :=
  match e with
  | Malformed _ =>
      mkProgress (p_messages acc) (p_inserted acc) (p_skipped acc)
                 (S (p_malformed acc)) (p_fresh acc)
  | Parsed stream ts m =>
      let fresh := note_subtype known (p_fresh acc) (subtype m) in
      match p_messages acc !! (stream, ts) with
      | Some _ =>
          mkProgress (p_messages acc) (p_inserted acc) (S (p_skipped acc))
                     (p_malformed acc) fresh
      | None =>
          mkProgress (<[(stream, ts) := m]> (p_messages acc))
                     (S (p_inserted acc)) (p_skipped acc)
                     (p_malformed acc) fresh
      end
  end.

(** Modelled from the spec: the entries of the archive are processed in
    order (section 4.1; missing from the sources). *)
Fixpoint import_entries (known : list string) (es : list Entry)
    (acc : Progress) : Progress :=
  match es with
  | [] => acc
  | e :: es' => import_entries known es' (import_entry known acc e)
  end.

(** Modelled from the spec: the one fatal condition of section 7. *)
Inductive ImportError := ArchiveUnreadableError.

(** Modelled from the spec: the subtypes the system knows are those
    reported new by earlier batches (sections 3 and 4.1). *)
Definition known_subtypes (s : Store) : list string :=
  concat (map new_subtypes (ImportBatches s)).

(** Modelled from the spec: [import] of section 4.1
    (slack_archive.import_archive is missing).  [container] is the archive
    found at the path, [None] when it cannot be opened. *)
Definition import (container : string -> option (list Entry))
    (archivePath : string) (s : Store)
  : ImportError + Store * (ImportBatch * list string) :=
  match container archivePath with
  | None => inl ArchiveUnreadableError
  | Some es =>
      let acc := import_entries (known_subtypes s) es
                   (mkProgress (Messages s) 0 0 0 []) in
      let batch := mkBatch archivePath (p_inserted acc) (p_skipped acc)
                     (p_malformed acc) (p_fresh acc) in
      inr (mkStore (p_messages acc) (ImportBatches s ++ [batch]),
           (batch, p_fresh acc))
  end.

(** Every parsed entry of [es] has its key in [m]. *)
Definition keys_present (es : list Entry) (m : gmap (string * string) Message)
  : Prop :=
  forall stream ts msg, Parsed stream ts msg ∈ es -> is_Some (m !! (stream, ts)).

(** Every parsed entry of [es] has its subtype in [ts]. *)
Definition subtypes_known (es : list Entry) (ts : list string) : Prop :=
  forall stream t msg, Parsed stream t msg ∈ es -> subtype msg ∈ ts.

Definition count_malformed (es : list Entry) : nat :=
  length (List.filter (fun e => match e with Malformed _ => true | _ => false end) es).

(** A small export: two messages, one of them twice, and an entry that
    does not parse. *)
Definition sample_archive (path : string) : option (list Entry) :=
  if String.eqb path "export.zip"
  then Some [Parsed "general" "1.0" (mkMessage "alice" "deploy at noon" "message" None);
             Malformed "{";
             Parsed "general" "2.0" (mkMessage "bob" "joined" "channel_join" None);
             Parsed "general" "1.0" (mkMessage "alice" "deploy at noon" "message" None)]
  else None.

End ArchiveCore.

(** * A small stand-in backend

    An in-memory implementation of [Backend], used to run the handlers on
    concrete requests. *)

Module Demo.

Fixpoint digits (s : string) (acc : Z) : option Z :=
  match s with
  | EmptyString => Some acc
  | String c s' =>
      let n := Z.of_nat (nat_of_ascii c) - 48 in
      if (0 <=? n) && (n <=? 9) then digits s' (10 * acc + n) else None
  end.

Definition to_int (s : string) : option Z :=
  match s with
  | EmptyString => None
  | _ => digits s 0
  end.

(** Streams by id: whether public, and the messages. *)
Definition db := gmap string (bool * list string).

Definition messages_of (d : db) (s : string) : list string :=
  match d !! s with
  | Some (_, ms) => ms
  | None => []
  end.

Definition page_of (ms : list string) : list string * Z :=
  (ms, Z.of_nat (length ms)).

Definition has_access (d : db) (u : UserInfo) (s : string) : bool :=
  match d !! s with
  | Some (public, _) => public || full_access u
  | None => false
  end.

Definition streams_by_filter (d : db) (u : UserInfo) (f : string)
  : list string * list string * list string * string :=
  let ids := map fst (map_to_list d) in
  (List.filter (fun s => bool_decide (fst <$> d !! s = Some true)) ids,
   List.filter (fun s => bool_decide (fst <$> d !! s = Some false)
                         && full_access u) ids,
   [],
   if String.eqb f "all" then "all" else "my").

Definition backend : Backend :=
  {| token_db := gmap string UserInfo;
     archive_db := db;
     stream_doc := string;
     message := string;
     import_report := Z;
     is_known_user := fun t key =>
       match key with Some k => bool_decide (is_Some (t !! k)) | None => false end;
     tokens_getitem := fun t key =>
       match key with Some k => t !! k | None => None end;
     tokens_upsert := fun t token who fa =>
       (<["key-" +:+ token := mkUser (user who) fa]> t, "key-" +:+ token);
     tokens_delitem := fun t key =>
       match key with
       | Some k => if bool_decide (is_Some (t !! k)) then Some (delete k t) else None
       | None => None
       end;
     stream_id := fun s => s;
     has_stream_access := has_access;
     filter_streams := streams_by_filter;
     find_messages := fun d q ids p => page_of (concat (map (messages_of d) ids));
     find_messages_in_stream := fun d q s p => page_of (messages_of d s);
     find_messages_around := fun d c s p => page_of (messages_of d s);
     stream_messages := fun d s p => page_of (messages_of d s);
     users_list := fun d domain => "users";
     stat := fun d => [("streams", Z.of_nat (size d))];
     import_archive := fun d =>
       (<["imported" := (true, ["hello"])]> d, (1, ["message"]));
     streams_fetch := fun d token => <["fetched" := (false, [])]> d;
     str_report := str_int;
     str_types := String.concat ",";
     MESSAGES_NUMBER_PER_SEARCH_REQUEST := 20;
     MESSAGES_NUMBER_PER_STREAM_REQUEST := 50;
     oauth_access := fun id secret code uri =>
       if String.eqb code "basic" then ApiOk (mkOAuth "xoxp-1" "identify,read")
       else if String.eqb code "advanced"
       then ApiOk (mkOAuth "xoxp-2" "identify,files:read,channels:read")
       else ApiError "invalid_code";
     auth_test := fun token =>
       if String.eqb token "xoxp-1" then ApiOk (mkApiAuth "T1" "slag" "alice")
       else if String.eqb token "xoxp-2" then ApiOk (mkApiAuth "T2" "other" "bob")
       else ApiError "invalid_auth";
     parse_int := to_int;
     flask_url_for := fun endpoint => "http://slag.example/" +:+ endpoint;
     isfile_static := fun p => String.eqb p "favicon.ico";
     read_static := fun p =>
       if String.eqb p "favicon.ico" then Some "icon" else None
  |}.

Definition production : Config := mkConfig "app" None "client" "secret" "T1".
Definition development : Config := mkConfig "__main__" None "client" "secret" "T1".

Definition alice : UserInfo := mkUser "alice" true.
Definition bob : UserInfo := mkUser "bob" false.

Definition world : World backend :=
  mkWorld backend
    ({["key-alice" := alice; "key-bob" := bob]} : gmap string UserInfo)
    ({["general" := (true, ["deploy at noon"; "lunch"]);
       "secret" := (false, ["launch codes"])]} : db)
    ∅ 1700000000 None [].

Definition get (p : string) (query : list (string * string)) (auth : option string)
  : Request :=
  mkRequest p ("http://slag.example" +:+ p) false (list_to_map query)
    (match auth with Some k => {["auth" := k]} | None => ∅ end) ∅ ∅.

(** ** Requests *)

(** An empty search by alice. *)
Definition blank_search : Request :=
  get "/search" [("q", EmptyString)] (Some "key-alice").

(** A context search by bob that names no stream. *)
Definition context_search : Request :=
  get "/search" [("q", "deploy"); ("c", "1700000000.000200")] (Some "key-bob").

(** The same context window asked for under two query texts. *)
Definition context_deploy : Request :=
  get "/search" [("q", "deploy"); ("c", "17"); ("s", "general")] (Some "key-bob").
Definition context_lunch : Request :=
  get "/search" [("q", "lunch"); ("c", "17"); ("s", "general")] (Some "key-bob").

Definition listing : Request := get "/browse" [] (Some "key-alice").

Definition basic_login : Request := get "/login" [("code", "basic")] None.

(** A search without a cookie, as a proxy forwards it from plain http. *)
Definition anonymous_search : Request :=
  get "/search" [("q", "deploy")] None.
Definition forwarded_search : Request :=
  mkRequest "/search" "http://slag.example/search" false
    {["q" := "deploy"]} ∅ {["X-Forwarded-Proto" := "http"]} ∅.

Definition import_request : Request := get "/import_db" [] (Some "key-bob").

(** More requests. *)
Definition denied_search : Request :=
  get "/search" [("q", "launch"); ("s", "secret")] (Some "key-bob").
Definition stream_search : Request :=
  get "/search" [("q", "deploy"); ("s", "general")] (Some "key-bob").
Definition global_search : Request :=
  get "/search" [("q", "deploy")] (Some "key-alice").
Definition bad_page_search : Request :=
  get "/search" [("q", "deploy"); ("p", "two")] (Some "key-alice").
Definition stranger_search : Request :=
  get "/search" [("q", "deploy")] (Some "key-eve").
Definition secret_browse : Request :=
  get "/browse" [("s", "secret")] (Some "key-bob").
Definition secure_browse : Request :=
  mkRequest "/browse" "https://slag.example/browse" true ∅
    {["auth" := "key-alice"]} ∅ ∅.
Definition login_visit : Request := get "/login" [] None.
Definition stat_request : Request := get "/stat" [] (Some "key-alice").
Definition expired_login : Request := get "/login" [("code", "expired")] None.
Definition advanced_login : Request := get "/login" [("code", "advanced")] None.
Definition fresh_browse : Request := get "/browse" [] (Some "key-xoxp-1").
Definition logout_request : Request := get "/logout" [] (Some "key-alice").
Definition zip_upload : Request :=
  mkRequest "/import" "http://slag.example/import" false ∅
    {["auth" := "key-alice"]} ∅ {["archive" := mkUpload "export.zip" "PK"]}.
Definition text_upload : Request :=
  mkRequest "/import" "http://slag.example/import" false ∅
    {["auth" := "key-alice"]} ∅ {["archive" := mkUpload "notes.txt" "hello"]}.

(** The same backend with a Slack that rejects every token. *)
Definition revoked : Backend :=
  mkBackend (token_db backend) (archive_db backend) (stream_doc backend)
    (message backend) (import_report backend)
    (is_known_user backend) (tokens_getitem backend) (tokens_upsert backend)
    (tokens_delitem backend)
    (stream_id backend) (has_stream_access backend) (filter_streams backend)
    (find_messages backend) (find_messages_in_stream backend)
    (find_messages_around backend) (stream_messages backend)
    (users_list backend) (stat backend) (import_archive backend)
    (streams_fetch backend) (str_report backend) (str_types backend)
    (MESSAGES_NUMBER_PER_SEARCH_REQUEST backend)
    (MESSAGES_NUMBER_PER_STREAM_REQUEST backend)
    (oauth_access backend) (fun _ => ApiError "token_revoked")
    (parse_int backend) (flask_url_for backend) (isfile_static backend)
    (read_static backend).

Definition revoked_world : World revoked :=
  mkWorld revoked (tokens backend world) (archive backend world)
    (logs backend world) (clock backend world) (local_archive backend world)
    (trace backend world).

End Demo.

(** * What a run of a handler shows *)

Global Instance UserInfo_eq_dec : EqDecision UserInfo.
Proof. solve_decision. Defined.

Section Observers.

Variable B : Backend.

(** The calls made between two worlds of one run. *)
Definition events_since (w w' : World B) : list Event :=
  drop (length (trace B w)) (trace B w').

(** Calls into [self.archive]. *)
Definition is_archive_call (ev : Event) : bool :=
  match ev with
  | HasStreamAccess _ _ _ | FilterStreams _ _ | FindMessages _ _ _
  | FindMessagesInStream _ _ _ | FindMessagesAround _ _ _
  | StreamMessages _ _ | UsersList _ | Stat | ImportArchive
  | StreamsFetch _ => true
  | _ => false
  end.

Definition archive_calls (evs : list Event) : list Event :=
  List.filter is_archive_call evs.

(** The tokens [streams_fetch] was called with, in order. *)
Definition streams_fetch_calls (evs : list Event) : list string :=
  omap (fun ev => match ev with StreamsFetch t => Some t | _ => None end) evs.

(** The run touched nothing: no collaborator was called, and the token
    store, the archive and every log collection are as before. *)
Definition store_untouched (w w' : World B) : Prop :=
  events_since w w' = [] /\
  tokens B w' = tokens B w /\
  archive B w' = archive B w /\
  logs B w' = logs B w.

(** The ids in the three partitions of [filter_streams(user, 'all')]. *)
Definition all_stream_ids (db : archive_db B) (u : UserInfo) : list string :=
  let '(public, private, direct, _) := filter_streams B db u "all" in
  map (stream_id B) (public ++ private ++ direct).

(** Every message read in [evs] is authorized for [u]: a read of a named
    stream comes after [has_stream_access(u, stream)] returned true in the
    same run, and a read over a set of ids is over [all_stream_ids]. *)
Fixpoint gated (db : archive_db B) (u : UserInfo) (granted : list string)
    (evs : list Event) : bool :=
  match evs with
  | [] => true
  | HasStreamAccess u' s true :: rest =>
      gated db u (if decide (u' = u) then s :: granted else granted) rest
  | FindMessagesInStream _ s _ :: rest
  | FindMessagesAround _ s _ :: rest
  | StreamMessages s _ :: rest =>
      bool_decide (s ∈ granted) && gated db u granted rest
  | FindMessages _ ids _ :: rest =>
      bool_decide (ids = all_stream_ids db u) && gated db u granted rest
  | _ :: rest => gated db u granted rest
  end.

(** A response with the echoed query text blanked. *)
Definition erase_query (out : Exc + Response B) : Exc + Response B :=
  match out with
  | inr (mkResponse _ (SearchPage _ results total _ s c p n) ops) =>
      inr (mkResponse B (SearchPage B results total EmptyString s c p n) ops)
  | _ => out
  end.

(** The result window and the total count a search response carries. *)
Definition result_window (out : Exc + Response B)
  : option (list (message B) * option Z) :=
  match out with
  | inr (mkResponse _ (SearchPage _ results total _ _ _ _ _) _) =>
      Some (results, Some total)
  | inr (mkResponse _ (SearchBlank _ results) _) => Some (results, None)
  | _ => None
  end.

(** Two requests that differ at most in the query text. *)
Definition same_but_query (r1 r2 : Request) : Prop :=
  cookies r1 = cookies r2 /\
  forall key, key <> "q" -> args r1 !! key = args r2 !! key.

(** The login that goes through: the code exchange and [auth.test] both
    answer, and the team is the configured one. *)
Definition login_grant (cfg : Config) (r : Request) : option (OAuth * ApiAuth) :=
  match oauth_access B (SLACK_CLIENT_ID cfg) (SLACK_CLIENT_SECRET cfg)
          (arg r "code") (url_for B cfg "login") with
  | ApiOk oauth =>
      match auth_test B (access_token oauth) with
      | ApiOk api_auth =>
          if String.eqb (team_id api_auth) (SLACK_TEAM_ID cfg)
          then Some (oauth, api_auth) else None
      | _ => None
      end
  | _ => None
  end.

(** Calls into the token store that change it. *)
Definition token_writes (evs : list Event) : list Event :=
  List.filter (fun ev => match ev with
                         | TokensUpsert _ _ _ | TokensDel _ => true
                         | _ => false
                         end) evs.

(** Every call a computation makes, from any world, passes [P]. *)
Definition calls_only {A} (P : Event -> bool) (m : M B A) : Prop :=
  forall w : World B,
    exists evs, trace B (snd (m w)) = trace B w ++ evs /\ forallb P evs = true.

Definition not_streams_fetch (ev : Event) : bool :=
  match ev with StreamsFetch _ => false | _ => true end.

Definition not_import (ev : Event) : bool :=
  match ev with ImportArchive => false | _ => true end.

(** A computation leaves the observation [f] of the world as it was. *)
Definition keeps {A X} (f : World B -> X) (m : M B A) : Prop :=
  forall w : World B, f (snd (m w)) = f w.

(** An observation that looks at neither the logs, the uploaded file nor
    the trace. *)
Definition log_blind {X} (f : World B -> X) : Prop :=
  forall (w : World B) l la tr,
    f (mkWorld B (tokens B w) (archive B w) l (clock B w) la tr) = f w.

(** The records a run added to one log collection. *)
Definition logged (coll : string) (w w' : World B) : list Doc :=
  drop (length (default [] (logs B w !! coll))) (default [] (logs B w' !! coll)).

End Observers.

(** * The web layer: theorems *)

Section WebServerFacts.

Variable B : Backend.
Variable cfg : Config.

Ltac run :=
  unfold search, browse, report_access_denied, tokens_get, tokens_known,
    archive_read, archive_write, insert_one, time_time, emit, lift, bind,
    ret, raise, plain, _redirect_page, _basic_page;
  cbn [fst snd tokens archive logs clock local_archive trace].

Lemma events_since_app (w : World B) t a l c la evs :
  events_since B w (mkWorld B t a l c la (trace B w ++ evs)) = evs.
Proof.
  unfold events_since; cbn [trace]. by rewrite drop_app_length.
Qed.

(** C1 (amended): a search with an empty query text returns the empty
    result set and calls no archive function; the token store is read once
    for the user, one record goes to the z_search log, and the token store
    and the archive are left as they were. *)
Theorem search_empty_query (r : Request) (w : World B) (u : UserInfo) (page : Z) :
  arg r "q" = EmptyString ->
  tokens_getitem B (tokens B w) (cookies r !! "auth") = Some u ->
  int_arg B r "p" = inr page ->
  let doc := [("_id", FTime (clock B w)); ("user", FStr (login u));
              ("q", FStr EmptyString)] in
  search B r w =
    (inr (mkResponse B (SearchBlank B []) []),
     mkWorld B (tokens B w) (archive B w)
       (<["z_search" := default [] (logs B w !! "z_search") ++ [doc]]> (logs B w))
       (clock B w) (local_archive B w)
       (trace B w ++ [TokensGet (cookies r !! "auth");
                      LogInsert "z_search" doc])).
Proof.
  intros Hq Hu Hp doc. run. rewrite Hu, Hp, Hq. cbn.
  by rewrite <- app_assoc.
Qed.


Ltac since :=
  rewrite <- ?app_assoc; cbn [app]; rewrite ?events_since_app.

(** C2, the failing case: a context search that names no stream.  With a
    query text, an empty stream argument and a context argument,
    [find_messages_around] is called on the empty stream name after neither
    [has_stream_access] nor [filter_streams] was consulted. *)
Theorem search_context_without_stream_ungated
    (r : Request) (w : World B) (u : UserInfo) (page : Z) :
  arg r "q" <> EmptyString ->
  arg r "s" = EmptyString ->
  arg r "c" <> EmptyString ->
  tokens_getitem B (tokens B w) (cookies r !! "auth") = Some u ->
  int_arg B r "p" = inr page ->
  let out := search B r w in
  let found := find_messages_around B (archive B w) (arg r "c") EmptyString page in
  fst out = inr (mkResponse B
                   (SearchPage B (fst found) (snd found) (arg r "q") EmptyString
                      (arg r "c") page (MESSAGES_NUMBER_PER_SEARCH_REQUEST B)) []) /\
  archive_calls (events_since B w (snd out)) =
    [FindMessagesAround (arg r "c") EmptyString page] /\
  gated B (archive B w) u [] (events_since B w (snd out)) = false.
Proof.
  intros Hq Hs Hc Hu Hp out found. subst out found. run.
  rewrite Hu, Hp, Hs.
  destruct (String.eqb_spec (arg r "q") EmptyString) as [|_]; [done|].
  destruct (String.eqb_spec (arg r "c") EmptyString) as [|_]; [done|].
  cbn.
  destruct (find_messages_around B (archive B w) (arg r "c") EmptyString page)
    as [results msg_count].
  cbn. since. by cbn.
Qed.

(** Every other message read of [search] is authorized: when the request
    names a stream, or carries no context argument, the reads of the run
    pass [gated]. *)
Lemma search_reads_gated (r : Request) (w : World B) (u : UserInfo) :
  tokens_getitem B (tokens B w) (cookies r !! "auth") = Some u ->
  arg r "s" <> EmptyString \/ arg r "c" = EmptyString ->
  gated B (archive B w) u [] (events_since B w (snd (search B r w))) = true.
Proof.
  intros Hu Hsc. run. rewrite Hu.
  destruct (int_arg B r "p") as [e|page]; cbn; [by since|].
  destruct (String.eqb_spec (arg r "q") EmptyString) as [Hq|Hq]; cbn;
    [by since|].
  destruct (String.eqb_spec (arg r "s") EmptyString) as [Hs|Hs]; cbn.
  - destruct Hsc as [|Hc]; [done|]. rewrite Hc. cbn.
    destruct (filter_streams B (archive B w) u "all")
      as [[[public private] direct] f] eqn:Hf.
    cbn.
    destruct (find_messages B (archive B w) (arg r "q")
                (map (stream_id B) (public ++ private ++ direct)) page).
    cbn. since. cbn. unfold all_stream_ids. rewrite Hf.
    by rewrite bool_decide_eq_true_2.
  - destruct (has_stream_access B (archive B w) u (arg r "s")) eqn:Hacc; cbn.
    + destruct (String.eqb_spec (arg r "c") EmptyString) as [Hc|Hc]; cbn.
      * destruct (find_messages_in_stream B (archive B w) (arg r "q")
                    (arg r "s") page).
        cbn. since. cbn. rewrite decide_True by done.
        by rewrite bool_decide_eq_true_2 by apply list_elem_of_here.
      * destruct (find_messages_around B (archive B w) (arg r "c")
                    (arg r "s") page).
        cbn. since. cbn. rewrite decide_True by done.
        by rewrite bool_decide_eq_true_2 by apply list_elem_of_here.
    + rewrite Hu. cbn. by since.
Qed.

(** Every message read of [browse] is authorized. *)
Lemma browse_reads_gated (r : Request) (w : World B) (u : UserInfo) :
  tokens_getitem B (tokens B w) (cookies r !! "auth") = Some u ->
  gated B (archive B w) u [] (events_since B w (snd (browse B r w))) = true.
Proof.
  intros Hu. run. rewrite Hu.
  destruct (int_arg B r "p") as [e|page]; cbn; [by since|].
  destruct (String.eqb_spec (arg r "s") EmptyString) as [Hs|Hs]; cbn.
  - destruct (filter_streams B (archive B w) u (default "my" (args r !! "filter")))
      as [[[public private] direct] f].
    cbn. by since.
  - destruct (has_stream_access B (archive B w) u (arg r "s")) eqn:Hacc; cbn.
    + destruct (stream_messages B (archive B w) (arg r "s") page).
      cbn. since. cbn. rewrite decide_True by done.
      by rewrite bool_decide_eq_true_2 by apply list_elem_of_here.
    + rewrite Hu. cbn. by since.
Qed.

Lemma same_but_query_arg (r1 r2 : Request) (key : string) :
  same_but_query r1 r2 -> key <> "q" -> arg r1 key = arg r2 key.
Proof. intros [_ H] Hk. unfold arg. by rewrite H. Qed.

(** C5: context-window retrieval ignores the query text.  Two searches with
    a context argument that differ only in their (non-empty) query text
    answer alike up to the echoed text: the same result window and total
    count, after the same calls into the archive. *)
Theorem search_context_ignores_query (r1 r2 : Request) (w : World B) :
  same_but_query r1 r2 ->
  arg r1 "q" <> EmptyString ->
  arg r2 "q" <> EmptyString ->
  arg r1 "c" <> EmptyString ->
  let out1 := search B r1 w in
  let out2 := search B r2 w in
  result_window B (fst out1) = result_window B (fst out2) /\
  erase_query B (fst out1) = erase_query B (fst out2) /\
  archive_calls (events_since B w (snd out1)) =
    archive_calls (events_since B w (snd out2)).
Proof.
  intros Hsame Hq1 Hq2 Hc out1 out2. subst out1 out2.
  pose proof (same_but_query_arg r1 r2 "s" Hsame ltac:(done)) as Hs.
  pose proof (same_but_query_arg r1 r2 "c" Hsame ltac:(done)) as Hc'.
  assert (int_arg B r1 "p" = int_arg B r2 "p") as Hp.
  { unfold int_arg. destruct Hsame as [_ H]. by rewrite H. }
  destruct Hsame as [Hck _].
  run. rewrite <- Hck, <- Hp, <- Hs, <- Hc'.
  destruct (tokens_getitem B (tokens B w) (cookies r1 !! "auth")) as [u|] eqn:Hu;
    [|by since].
  destruct (int_arg B r1 "p") as [e|page]; cbn; [by since|].
  destruct (String.eqb_spec (arg r1 "q") EmptyString) as [|_]; [done|].
  destruct (String.eqb_spec (arg r2 "q") EmptyString) as [|_]; [done|].
  destruct (String.eqb_spec (arg r1 "c") EmptyString) as [|_]; [done|].
  destruct (String.eqb_spec (arg r1 "s") EmptyString) as [Hs0|Hs0]; cbn.
  - destruct (find_messages_around B (archive B w) (arg r1 "c") (arg r1 "s") page).
    cbn. by since.
  - destruct (has_stream_access B (archive B w) u (arg r1 "s")); cbn.
    + destruct (find_messages_around B (archive B w) (arg r1 "c") (arg r1 "s") page).
      cbn. by since.
    + rewrite Hu. cbn. by since.
Qed.

(** C6: a stream listing asks [filter_streams] for the filter named in the
    request, for my when the request names none, and shows the filter name
    that [filter_streams] returned. *)
Theorem browse_default_filter (r : Request) (w : World B) (u : UserInfo) (page : Z) :
  arg r "s" = EmptyString ->
  tokens_getitem B (tokens B w) (cookies r !! "auth") = Some u ->
  int_arg B r "p" = inr page ->
  let out := browse B r w in
  let requested := default "my" (args r !! "filter") in
  let '(public, private, direct, resolved) :=
    filter_streams B (archive B w) u requested in
  (args r !! "filter" = None -> requested = "my") /\
  fst out = inr (mkResponse B
                   (BrowsePage B public private direct resolved (full_access u)) []) /\
  archive_calls (events_since B w (snd out)) = [FilterStreams u requested].
Proof.
  intros Hs Hu Hp out requested. subst out requested. run. rewrite Hu, Hp, Hs. cbn.
  destruct (filter_streams B (archive B w) u (default "my" (args r !! "filter")))
    as [[[public private] direct] resolved].
  cbn. split; [by intros ->|]. by since.
Qed.

Lemma str_count_nonneg (c : ascii) (s : string) : 0 <= str_count c s.
Proof.
  induction s as [|d s IH]; cbn [str_count]; [lia|].
  destruct (Ascii.eqb c d); lia.
Qed.

Ltac run_login :=
  unfold login_page, _login_oauth, _login_with_token, _login_success,
    cookies_expire_date;
  run.

(** The run of a login that goes through, step by step. *)
Lemma login_page_granted (r : Request) (w : World B) (oauth : OAuth) (au : ApiAuth) :
  arg r "code" <> EmptyString ->
  login_grant B cfg r = Some (oauth, au) ->
  let token := access_token oauth in
  let fa := negb (str_count ","%char (scope oauth) =? 1) in
  let upserted := tokens_upsert B (tokens B w) token au fa in
  let doc := [("_id", FTime (clock B w)); ("user", FStr (user au))] in
  login_page B cfg r w =
    (inr (mkResponse B (Redirect B "/browse" 302)
            [CookieSet "auth" (snd upserted) (clock B w + 365 * 24 * 60 * 60)]),
     mkWorld B (fst upserted) (streams_fetch B (archive B w) token)
       (<["z_logins" := default [] (logs B w !! "z_logins") ++ [doc]]> (logs B w))
       (clock B w) (local_archive B w)
       (trace B w ++ [OauthAccess (arg r "code") (url_for B cfg "login");
                      AuthTest token;
                      TokensUpsert token au fa;
                      LogInsert "z_logins" doc;
                      SetCookie "auth" (snd upserted);
                      StreamsFetch token])).
Proof.
  intros Hcode Hgrant token fa upserted doc. subst token fa upserted doc.
  unfold login_grant in Hgrant. run_login.
  destruct (String.eqb_spec (arg r "code") EmptyString) as [|_]; [done|]. cbn.
  destruct (oauth_access B _ _ _ _) as [oauth'| |]; [|done..].
  cbn in *.
  destruct (auth_test B (access_token oauth')) as [au'| |]; [|done..].
  cbn in *.
  destruct (String.eqb (team_id au') (SLACK_TEAM_ID cfg)); [|done].
  injection Hgrant as -> ->. cbn.
  destruct (tokens_upsert B (tokens B w) (access_token oauth) au
              (negb (str_count "," (scope oauth) =? 1))) as [tk key].
  cbn. by rewrite <- !app_assoc.
Qed.

(** The run of a login that is turned down: the archive and the token
    store stay as they are and [streams_fetch] is not among the calls. *)
Lemma login_page_refused (r : Request) (w : World B) :
  arg r "code" <> EmptyString ->
  login_grant B cfg r = None ->
  let out := login_page B cfg r w in
  streams_fetch_calls (events_since B w (snd out)) = [] /\
  token_writes (events_since B w (snd out)) = [] /\
  archive B (snd out) = archive B w /\
  tokens B (snd out) = tokens B w.
Proof.
  intros Hcode Hgrant out. subst out.
  unfold login_grant in Hgrant. run_login.
  destruct (String.eqb_spec (arg r "code") EmptyString) as [|_]; [done|]. cbn.
  destruct (oauth_access B _ _ _ _) as [oauth'| |]; cbn; [|by since..].
  destruct (auth_test B (access_token oauth')) as [au'| |] eqn:Hau; cbn;
    [|by since..].
  destruct (String.eqb (team_id au') (SLACK_TEAM_ID cfg)) eqn:Hteam; [done|].
  cbn. by since.
Qed.

(** The login page itself, asked for without a code, calls nothing. *)
Lemma login_page_without_code (r : Request) (w : World B) :
  arg r "code" = EmptyString ->
  snd (login_page B cfg r w) = w.
Proof.
  intros Hcode. unfold login_page. rewrite Hcode. by cbn.
Qed.

(** C7: [streams_fetch] is called exactly on the login that goes through,
    once, with the granted token, as the last call after the credential was
    upserted into the token store and the auth cookie was set; a login that
    is turned down (OAuth error, auth error, wrong team) never calls it. *)
Theorem streams_fetch_only_after_login (r : Request) (w : World B) :
  arg r "code" <> EmptyString ->
  let out := login_page B cfg r w in
  let evs := events_since B w (snd out) in
  match login_grant B cfg r with
  | Some (oauth, au) =>
      let token := access_token oauth in
      let fa := negb (str_count ","%char (scope oauth) =? 1) in
      let key := snd (tokens_upsert B (tokens B w) token au fa) in
      streams_fetch_calls evs = [token] /\
      evs = [OauthAccess (arg r "code") (url_for B cfg "login");
             AuthTest token;
             TokensUpsert token au fa;
             LogInsert "z_logins"
               [("_id", FTime (clock B w)); ("user", FStr (user au))];
             SetCookie "auth" key;
             StreamsFetch token] /\
      archive B (snd out) = streams_fetch B (archive B w) token
  | None =>
      streams_fetch_calls evs = [] /\ archive B (snd out) = archive B w
  end.
Proof.
  intros Hcode out evs. subst out evs.
  destruct (login_grant B cfg r) as [[oauth au]|] eqn:Hgrant.
  - rewrite (login_page_granted r w oauth au Hcode Hgrant). cbn [snd].
    rewrite events_since_app. by cbn.
  - destruct (login_page_refused r w Hcode Hgrant) as (Hf & _ & Ha & _).
    by split.
Qed.

(** C8: the scope flag stored with the credential is a comma count.  On
    the login that goes through, the one write to the token store is the
    upsert with [full_access] false exactly when the granted scope string
    holds exactly one comma, and true for any other number of commas. *)
Theorem scope_flag_is_comma_count (r : Request) (w : World B)
    (oauth : OAuth) (au : ApiAuth) :
  arg r "code" <> EmptyString ->
  login_grant B cfg r = Some (oauth, au) ->
  let out := login_page B cfg r w in
  let commas := str_count ","%char (scope oauth) in
  exists fa : bool,
    token_writes (events_since B w (snd out)) =
      [TokensUpsert (access_token oauth) au fa] /\
    tokens B (snd out) =
      fst (tokens_upsert B (tokens B w) (access_token oauth) au fa) /\
    (fa = false <-> commas = 1) /\
    (fa = true <-> commas = 0 \/ 2 <= commas).
Proof.
  intros Hcode Hgrant out commas. subst out commas.
  exists (negb (str_count ","%char (scope oauth) =? 1)).
  rewrite (login_page_granted r w oauth au Hcode Hgrant). cbn [snd tokens].
  rewrite events_since_app. repeat split; try done.
  - intros H. apply negb_false_iff in H. by apply Z.eqb_eq.
  - intros H. apply negb_false_iff. by apply Z.eqb_eq.
  - intros H. apply negb_true_iff, Z.eqb_neq in H.
    pose proof (str_count_nonneg ","%char (scope oauth)). lia.
  - intros H. apply negb_true_iff, Z.eqb_neq. lia.
Qed.

Ltac run_handle :=
  unfold handle, _redirect_to_https, _check_auth, route, upload, import_db;
  run.

(** When [_redirect_to_https] fires it answers the request alone. *)
Lemma handle_https_first (r : Request) (w : World B) :
  (is_secure r || bool_decide (headers r !! "X-Forwarded-Proto" = Some "http"))
  && is_production cfg = true ->
  handle B cfg r w =
    (inr (mkResponse B
            (Redirect B (replace_first "http://" "https://" (url r)) 301) []),
     w).
Proof. intros H. run_handle. by rewrite H. Qed.

(** C9 (amended): a request whose auth cookie names no known user, for a
    path that is neither /login nor a file of the static folder, is answered
    by the [before_request] functions and never reaches a route handler:
    with the https redirect when that one fires, with the login-redirect
    page otherwise.  Either way nothing is called but the token store's
    [is_known_user], and the store is left as it was. *)
Theorem unauthenticated_request_stopped (r : Request) (w : World B) :
  is_known_user B (tokens B w) (cookies r !! "auth") = false ->
  path r <> "/login" ->
  isfile_static B (tail_str (path r)) = false ->
  let out := handle B cfg r w in
  let to_https :=
    (is_secure r || bool_decide (headers r !! "X-Forwarded-Proto" = Some "http"))
    && is_production cfg in
  fst out =
    inr (if to_https
         then mkResponse B
                (Redirect B (replace_first "http://" "https://" (url r)) 301) []
         else mkResponse B (RedirectPage B "/login" "Auth required") []) /\
  events_since B w (snd out) =
    (if to_https then [] else [TokensIsKnown (cookies r !! "auth")]) /\
  tokens B (snd out) = tokens B w /\
  archive B (snd out) = archive B w /\
  logs B (snd out) = logs B w.
Proof.
  intros Hknown Hpath Hfile out to_https. subst out to_https. run_handle.
  destruct ((is_secure r || bool_decide (headers r !! "X-Forwarded-Proto" = Some "http"))
            && is_production cfg); cbn.
  - unfold events_since. by rewrite drop_all.
  - rewrite Hknown, Hfile.
    destruct (String.eqb_spec (path r) "/login") as [|_]; [done|].
    cbn. by since.
Qed.

(** C10: the import endpoints check the mode, not the user.  In production
    both handlers answer with the access-denied redirect and leave the world
    alone, and no request to either path gets an archive call made; outside
    production the /import_db request of any known user runs
    [import_archive]. *)
Theorem import_endpoints_check_mode_only :
  (is_production cfg = true ->
   forall (r : Request) (w : World B),
     upload B cfg r w =
       (inr (mkResponse B (RedirectPage B "/browse" "Access denied") []), w) /\
     import_db B cfg r w =
       (inr (mkResponse B (RedirectPage B "/browse" "Access denied") []), w) /\
     (path r = "/import" \/ path r = "/import_db" ->
      archive_calls (events_since B w (snd (handle B cfg r w))) = [] /\
      archive B (snd (handle B cfg r w)) = archive B w)) /\
  (is_production cfg = false ->
   forall (r : Request) (w : World B),
     path r = "/import_db" ->
     is_known_user B (tokens B w) (cookies r !! "auth") = true ->
     let out := handle B cfg r w in
     let imported := import_archive B (archive B w) in
     fst out =
       inr (mkResponse B
              (BasicPage B "Archive import complete"
                 ("Import complete!<br />" +:+ str_report B (fst (snd imported))
                  +:+ "<br/>" +:+ str_types B (snd (snd imported)))) []) /\
     events_since B w (snd out) =
       [TokensIsKnown (cookies r !! "auth"); ImportArchive] /\
     archive B (snd out) = fst imported).
Proof.
  split.
  - intros Hprod r w. split; [|split].
    + unfold upload. by rewrite Hprod.
    + unfold import_db. by rewrite Hprod.
    + intros Hpath. run_handle. rewrite Hprod, andb_true_r.
      destruct (is_secure r || bool_decide (headers r !! "X-Forwarded-Proto" = Some "http"));
        cbn; [unfold events_since; by rewrite drop_all|].
      destruct (is_known_user B (tokens B w) (cookies r !! "auth")); cbn.
      * destruct Hpath as [-> | ->]; cbn; by since.
      * destruct Hpath as [-> | ->]; cbn;
          destruct (isfile_static B _); cbn; by since.
  - intros Hprod r w Hpath Hknown out imported. subst out imported.
    run_handle. rewrite Hprod, andb_false_r, Hknown, Hpath. cbn.
    destruct (import_archive B (archive B w)) as [db [result types_new]].
    cbn. by since.
Qed.

(** ** Which calls a route can make

    [calls_only] is closed under the monad's operations, so what a handler
    may call is read off its text. *)

Section CallsOnly.

Variable P : Event -> bool.

Lemma calls_only_ret {A} (a : A) : calls_only B P (ret B a).
Proof. intros w. exists []. by rewrite app_nil_r. Qed.

Lemma calls_only_raise {A} (e : Exc) : calls_only B P (@raise B A e).
Proof. intros w. exists []. by rewrite app_nil_r. Qed.

Lemma calls_only_lift {A} (x : Exc + A) : calls_only B P (lift B x).
Proof. intros w. exists []. by rewrite app_nil_r. Qed.

Lemma calls_only_time : calls_only B P (time_time B).
Proof. intros w. exists []. by rewrite app_nil_r. Qed.

Lemma calls_only_emit (ev : Event) : P ev = true -> calls_only B P (emit B ev).
Proof. intros H w. exists [ev]. cbn. by rewrite H. Qed.

Lemma calls_only_insert_one (coll : string) (doc : Doc) :
  P (LogInsert coll doc) = true -> calls_only B P (insert_one B coll doc).
Proof. intros H w. exists [LogInsert coll doc]. cbn. by rewrite H. Qed.

Lemma calls_only_bind {A C} (m : M B A) (k : A -> M B C) :
  calls_only B P m -> (forall a, calls_only B P (k a)) ->
  calls_only B P (bind B m k).
Proof.
  intros Hm Hk w. unfold bind. destruct (Hm w) as (evs & Ht & Hp).
  destruct (m w) as [[e|a] w']; cbn in *; [by exists evs|].
  destruct (Hk a w') as (evs' & Ht' & Hp').
  exists (evs ++ evs'). split.
  - by rewrite Ht', Ht, app_assoc.
  - rewrite forallb_app. by rewrite Hp, Hp'.
Qed.

Lemma calls_only_tokens_get (key : option string) :
  P (TokensGet key) = true -> calls_only B P (tokens_get B key).
Proof.
  intros H. apply calls_only_bind; [by apply calls_only_emit|].
  intros _ w. exists []. rewrite app_nil_r.
  by destruct (tokens_getitem B (tokens B w) key).
Qed.

Lemma calls_only_tokens_known (key : option string) :
  P (TokensIsKnown key) = true -> calls_only B P (tokens_known B key).
Proof.
  intros H. apply calls_only_bind; [by apply calls_only_emit|].
  intros _ w. exists []. by rewrite app_nil_r.
Qed.

Lemma calls_only_archive_read {A} (ev : A -> Event) (f : archive_db B -> A) :
  (forall a, P (ev a) = true) -> calls_only B P (archive_read B ev f).
Proof. intros H w. exists [ev (f (archive B w))]. cbn. by rewrite H. Qed.

Lemma calls_only_archive_write {A} (ev : Event)
    (f : archive_db B -> archive_db B * A) :
  P ev = true -> calls_only B P (archive_write B ev f).
Proof.
  intros H w. exists [ev]. unfold archive_write.
  destruct (f (archive B w)). cbn. by rewrite H.
Qed.

(** A step that changes the world without a call. *)
Lemma calls_only_silent {A} (m : M B A) :
  (forall w, trace B (snd (m w)) = trace B w) -> calls_only B P m.
Proof. intros H w. exists []. by rewrite app_nil_r. Qed.

End CallsOnly.

Ltac calls :=
  repeat first
    [ apply calls_only_ret | apply calls_only_raise | apply calls_only_lift
    | apply calls_only_time
    | apply calls_only_emit; reflexivity
    | apply calls_only_insert_one; reflexivity
    | apply calls_only_tokens_get; reflexivity
    | apply calls_only_tokens_known; reflexivity
    | apply calls_only_archive_read; intros; reflexivity
    | apply calls_only_archive_write; reflexivity
    | apply calls_only_bind; [|intros ?]
    | match goal with
      | |- calls_only _ _ (if ?b then _ else _) => destruct b
      | |- calls_only _ _ (match ?x with _ => _ end) => destruct x
      end ].

Ltac silent :=
  apply calls_only_silent; intros ?;
  repeat match goal with
         | |- context [match ?x with _ => _ end] => destruct x
         end; reflexivity.

(** Across the application, no route but /login calls [streams_fetch]. *)
Lemma only_login_fetches (r : Request) :
  path r <> "/login" -> calls_only B not_streams_fetch (handle B cfg r).
Proof.
  intros Hpath.
  unfold handle, _redirect_to_https, _check_auth, route.
  destruct (String.eqb_spec (path r) "/login") as [|_]; [done|].
  unfold index, users, stat_page, logout, search, browse, report_access_denied,
    upload, import_db, send_file.
  calls; silent.
Qed.

(** Across the application, in production no request at all gets
    [import_archive] called. *)
Lemma production_never_imports (r : Request) :
  is_production cfg = true -> calls_only B not_import (handle B cfg r).
Proof.
  intros Hprod.
  unfold handle, _redirect_to_https, _check_auth, route.
  unfold index, users, stat_page, login_page, _login_oauth, _login_with_token,
    _login_success, cookies_expire_date, logout, search, browse,
    report_access_denied, upload, import_db, send_file.
  rewrite Hprod.
  calls; silent.
Qed.

(** What [calls_only] says about the calls of one run. *)
Lemma calls_since (A : Type) (P : Event -> bool) (m : M B A) (w : World B) :
  calls_only B P m -> forallb P (events_since B w (snd (m w))) = true.
Proof.
  intros H. destruct (H w) as (evs & Ht & Hp).
  unfold events_since. by rewrite Ht, drop_app_length.
Qed.

End WebServerFacts.

(** * Concrete runs on the stand-in backend *)

Module Runs.

Import Demo.

Lemma search_empty_query_witness :
  arg blank_search "q" = EmptyString /\
  fst (search backend blank_search world) =
    inr (mkResponse backend (SearchBlank backend []) []) /\
  archive_calls
    (events_since backend world (snd (search backend blank_search world))) = [].
Proof.
  split; [vm_compute; reflexivity|].
  pose proof (search_empty_query backend blank_search world alice 0
                ltac:(vm_compute; reflexivity) ltac:(vm_compute; reflexivity)
                ltac:(vm_compute; reflexivity)) as H.
  cbv zeta in H. rewrite H. cbn [fst snd]. split; [reflexivity|].
  rewrite events_since_app. reflexivity.
Defined.

(** C1 as stated does not hold: the search is logged before the query text
    is looked at, so an empty query still writes the z_search collection. *)
Lemma search_empty_query_is_logged :
  arg blank_search "q" = EmptyString /\
  logs backend world !! "z_search" = None /\
  logs backend (snd (search backend blank_search world)) !! "z_search" =
    Some [[("_id", FTime 1700000000); ("user", FStr "alice");
           ("q", FStr EmptyString)]] /\
  ~ store_untouched backend world (snd (search backend blank_search world)).
Proof.
  split; [(vm_compute; done)|]. split; [(vm_compute; done)|]. split; [(vm_compute; done)|].
  intros (_ & _ & _ & Hlogs).
  apply (f_equal (fun m : gmap string (list Doc) => m !! "z_search")) in Hlogs.
  vm_compute in Hlogs. discriminate Hlogs.
Qed.

Lemma search_context_without_stream_witness :
  arg context_search "s" = EmptyString /\
  gated backend (archive backend world) bob []
    (events_since backend world (snd (search backend context_search world)))
  = false.
Proof.
  split; [(vm_compute; done)|].
  apply (search_context_without_stream_ungated backend context_search world bob 0);
    (vm_compute; done).
Defined.

Lemma search_context_ignores_query_witness :
  arg context_deploy "q" = "deploy" /\
  arg context_lunch "q" = "lunch" /\
  result_window backend (fst (search backend context_deploy world)) =
  result_window backend (fst (search backend context_lunch world)).
Proof.
  split; [(vm_compute; done)|]. split; [(vm_compute; done)|].
  apply (search_context_ignores_query backend context_deploy context_lunch world);
    try (vm_compute; done).
  split; [(vm_compute; done)|].
  intros key Hkey. unfold context_deploy, context_lunch, get. cbn [args list_to_map foldr curry].
  by rewrite !(lookup_insert_ne _ "q" key).
Defined.

Lemma browse_default_filter_witness :
  args listing !! "filter" = None /\
  fst (browse backend listing world) =
    inr (mkResponse backend
           (BrowsePage backend ["general"] ["secret"] [] "my" (full_access alice)) []) /\
  archive_calls (events_since backend world (snd (browse backend listing world))) =
    [FilterStreams alice (default "my" (args listing !! "filter"))].
Proof.
  split; [vm_compute; reflexivity|].
  pose proof (browse_default_filter backend listing world alice 0
                ltac:(vm_compute; reflexivity) ltac:(vm_compute; reflexivity)
                ltac:(vm_compute; reflexivity)) as H.
  cbv zeta in H.
  assert (filter_streams backend (archive backend world) alice
            (default "my" (args listing !! "filter")) =
          (["general"], ["secret"], [], "my")) as E
    by (vm_compute; reflexivity).
  rewrite E in H. exact (proj2 H).
Defined.

Lemma streams_fetch_only_after_login_witness :
  arg basic_login "code" = "basic" /\
  streams_fetch_calls
    (events_since backend world (snd (login_page backend development basic_login world)))
  = ["xoxp-1"].
Proof.
  split; [(vm_compute; done)|].
  pose proof (streams_fetch_only_after_login backend development basic_login world
                ltac:(vm_compute; done)) as H.
  cbv zeta in H.
  change (login_grant backend development basic_login)
    with (Some (mkOAuth "xoxp-1" "identify,read", mkApiAuth "T1" "slag" "alice")) in H.
  exact (proj1 H).
Defined.

Lemma scope_flag_is_comma_count_witness :
  login_grant backend development basic_login =
    Some (mkOAuth "xoxp-1" "identify,read", mkApiAuth "T1" "slag" "alice") /\
  exists fa : bool,
    token_writes
      (events_since backend world
         (snd (login_page backend development basic_login world))) =
      [TokensUpsert "xoxp-1" (mkApiAuth "T1" "slag" "alice") fa] /\
    (fa = false <-> str_count ","%char "identify,read" = 1).
Proof.
  split; [(vm_compute; done)|].
  destruct (scope_flag_is_comma_count backend development basic_login world
              (mkOAuth "xoxp-1" "identify,read") (mkApiAuth "T1" "slag" "alice")
              ltac:(vm_compute; done) ltac:(vm_compute; done))
    as (fa & Hw & _ & Hfa & _).
  exists fa. by split.
Defined.

Lemma unauthenticated_request_stopped_witness :
  is_known_user backend (tokens backend world) (cookies anonymous_search !! "auth")
  = false /\
  fst (handle backend production anonymous_search world) =
    inr (mkResponse backend (RedirectPage backend "/login" "Auth required") []).
Proof.
  split; [(vm_compute; done)|].
  apply (unauthenticated_request_stopped backend production anonymous_search world);
    (vm_compute; done).
Defined.

(** C9 as stated does not hold: in production a request forwarded from
    plain http is answered by [_redirect_to_https], which runs before
    [_check_auth]; the answer is the 301 redirect, not the login-redirect
    page. *)
Lemma unauthenticated_request_sent_to_https :
  is_known_user backend (tokens backend world) (cookies forwarded_search !! "auth")
  = false /\
  path forwarded_search <> "/login" /\
  isfile_static backend (tail_str (path forwarded_search)) = false /\
  fst (handle backend production forwarded_search world) =
    inr (mkResponse backend (Redirect backend "https://slag.example/search" 301) []) /\
  fst (handle backend production forwarded_search world) <>
    inr (mkResponse backend (RedirectPage backend "/login" "Auth required") []).
Proof.
  split; [vm_compute; reflexivity|].
  split; [vm_compute; discriminate|].
  split; [vm_compute; reflexivity|].
  rewrite (handle_https_first backend production forwarded_search world)
    by (vm_compute; reflexivity).
  cbn [fst].
  assert (replace_first "http://" "https://" (url forwarded_search) =
          "https://slag.example/search") as -> by (vm_compute; reflexivity).
  split; [reflexivity|discriminate].
Qed.

Lemma import_endpoints_check_mode_only_witness :
  is_production production = true /\
  is_production development = false /\
  import_db backend production import_request world =
    (inr (mkResponse backend (RedirectPage backend "/browse" "Access denied") []),
     world) /\
  events_since backend world
    (snd (handle backend development import_request world)) =
    [TokensIsKnown (Some "key-bob"); ImportArchive].
Proof.
  split; [(vm_compute; done)|]. split; [(vm_compute; done)|]. split.
  - apply (proj1 (import_endpoints_check_mode_only backend production)
             ltac:(vm_compute; done) import_request world).
  - apply (proj2 (import_endpoints_check_mode_only backend development)
             ltac:(vm_compute; done) import_request world);
      (vm_compute; done).
Defined.

End Runs.

(** * The archive engine: theorems *)

Module ArchiveCoreFacts.

Import ArchiveCore.

Lemma is_kind_cases (st : Stream) :
  is_kind PublicChannel st || is_kind PrivateGroup st || is_kind DirectMessage st
  = true.
Proof. unfold is_kind. by destruct (kind st). Qed.

Lemma elem_of_partition (joined_only : bool) (f : Filter) (u : User) (k : Kind)
    (streams : gmap string Stream) (id : string) (st : Stream) :
  (id, st) ∈ partition_of joined_only f u k streams <->
  streams !! id = Some st /\ is_kind k st = true /\
  listed joined_only f u id st = true.
Proof.
  unfold partition_of.
  rewrite list_elem_of_In, filter_In, <- list_elem_of_In, elem_of_map_to_list.
  cbn [fst snd]. rewrite andb_true_iff. tauto.
Qed.

(** C3: [hasStreamAccess] agrees with [filterStreams]: a stream id is in
    one of the three partitions listed for the filter all exactly when
    [hasStreamAccess] grants it to that user. *)
Theorem access_consistent (joined_only : bool) (streams : gmap string Stream)
    (u : User) (id : string) :
  hasStreamAccess streams u id = true <->
  id ∈ partition_ids (filterStreams joined_only streams u (Some "all")).
Proof.
  unfold hasStreamAccess, filterStreams, partition_ids. cbn [resolve_filter String.eqb].
  change (String.eqb "all" "all") with true. cbn iota.
  rewrite list_elem_of_In, in_map_iff. split.
  - destruct (streams !! id) as [st|] eqn:Hst; [|done]. intros Hvis.
    exists (id, st). split; [done|].
    rewrite !in_app_iff, <- !list_elem_of_In, !elem_of_partition.
    unfold listed. rewrite Hvis. cbn.
    pose proof (is_kind_cases st) as Hk.
    apply orb_true_iff in Hk as [Hk|Hk]; [apply orb_true_iff in Hk as [Hk|Hk]|];
      tauto.
  - intros ([id' st] & Hid & Hin). cbn in Hid. subst id'.
    rewrite !in_app_iff, <- !list_elem_of_In, !elem_of_partition in Hin.
    unfold listed in Hin.
    assert (streams !! id = Some st /\ visible u id st = true) as [-> Hvis].
    { destruct Hin as [(? & _ & H)|[(? & _ & H)|(? & _ & H)]];
        apply andb_true_iff in H; tauto. }
    done.
Qed.

(** ** Import *)

(** An upsert never replaces or removes a message. *)
Lemma import_entry_keeps (known : list string) (acc : Progress) (e : Entry)
    (k : string * string) :
  is_Some (p_messages acc !! k) ->
  is_Some (p_messages (import_entry known acc e) !! k).
Proof.
  intros Hk. destruct e as [stream ts m|raw]; cbn; [|done].
  destruct (p_messages acc !! (stream, ts)) eqn:Hl; cbn; [done|].
  rewrite lookup_insert. by case_decide.
Qed.

Lemma import_entries_keeps (known : list string) (es : list Entry)
    (acc : Progress) (k : string * string) :
  is_Some (p_messages acc !! k) ->
  is_Some (p_messages (import_entries known es acc) !! k).
Proof.
  revert acc. induction es as [|e es IH]; intros acc Hk; cbn; [done|].
  by apply IH, import_entry_keeps.
Qed.

(** After a run every parsed entry is in the collection. *)
Lemma import_entries_present (known : list string) (es : list Entry)
    (acc : Progress) :
  keys_present es (p_messages (import_entries known es acc)).
Proof.
  revert acc. induction es as [|e es IH]; intros acc stream ts msg Hin.
  - by apply elem_of_nil in Hin.
  - apply elem_of_cons in Hin as [<-|Hin]; [|by eapply IH].
    cbn. apply import_entries_keeps. cbn.
    destruct (p_messages acc !! (stream, ts)) eqn:Hl; cbn; [by rewrite Hl|].
    by rewrite lookup_insert_eq.
Qed.

Lemma note_subtype_keeps (known fresh : list string) (t t' : string) :
  t' ∈ known ++ fresh -> t' ∈ known ++ note_subtype known fresh t.
Proof.
  unfold note_subtype. case_bool_decide; [done|].
  rewrite !elem_of_app. tauto.
Qed.

Lemma note_subtype_noted (known fresh : list string) (t : string) :
  t ∈ known ++ note_subtype known fresh t.
Proof.
  unfold note_subtype. case_bool_decide; [done|].
  rewrite !elem_of_app, list_elem_of_singleton. tauto.
Qed.

Lemma import_entry_fresh_keeps (known : list string) (acc : Progress) (e : Entry)
    (t : string) :
  t ∈ known ++ p_fresh acc -> t ∈ known ++ p_fresh (import_entry known acc e).
Proof.
  intros Ht. destruct e as [stream ts m|raw]; cbn; [|done].
  destruct (p_messages acc !! (stream, ts)); cbn; by apply note_subtype_keeps.
Qed.

Lemma import_entries_fresh_keeps (known : list string) (es : list Entry)
    (acc : Progress) (t : string) :
  t ∈ known ++ p_fresh acc ->
  t ∈ known ++ p_fresh (import_entries known es acc).
Proof.
  revert acc. induction es as [|e es IH]; intros acc Ht; cbn; [done|].
  by apply IH, import_entry_fresh_keeps.
Qed.

(** After a run every subtype met is known or reported new. *)
Lemma import_entries_subtypes (known : list string) (es : list Entry)
    (acc : Progress) :
  subtypes_known es (known ++ p_fresh (import_entries known es acc)).
Proof.
  revert acc. induction es as [|e es IH]; intros acc stream ts msg Hin.
  - by apply elem_of_nil in Hin.
  - apply elem_of_cons in Hin as [<-|Hin]; [|by eapply IH].
    cbn. apply import_entries_fresh_keeps.
    destruct (p_messages acc !! (stream, ts)); cbn; apply note_subtype_noted.
Qed.

(** A run over entries that are all present, with subtypes all known,
    inserts nothing, reports no subtype and leaves the collection alone. *)
Lemma import_entries_replay (known : list string) (es : list Entry)
    (acc : Progress) :
  keys_present es (p_messages acc) ->
  subtypes_known es known ->
  let acc' := import_entries known es acc in
  p_messages acc' = p_messages acc /\
  p_inserted acc' = p_inserted acc /\
  p_fresh acc' = p_fresh acc /\
  p_skipped acc' = (p_skipped acc + (length es - count_malformed es))%nat.
Proof.
  revert acc. induction es as [|e es IH]; intros acc Hkeys Hsub; cbn.
  - repeat split; lia.
  - assert (p_messages (import_entry known acc e) = p_messages acc /\
            p_inserted (import_entry known acc e) = p_inserted acc /\
            p_fresh (import_entry known acc e) = p_fresh acc /\
            p_skipped (import_entry known acc e) =
              (p_skipped acc + match e with Parsed _ _ _ => 1 | Malformed _ => 0 end)%nat)
      as (Hm & Hi & Hf & Hs).
    { destruct e as [stream ts m|raw]; cbn; [|repeat split; lia].
      destruct (Hkeys stream ts m) as [old Hold]; [apply list_elem_of_here|].
      rewrite Hold. cbn. unfold note_subtype.
      rewrite bool_decide_eq_true_2; [repeat split; lia|].
      apply elem_of_app. left. eapply Hsub, list_elem_of_here. }
    destruct (IH (import_entry known acc e)) as (Hm' & Hi' & Hf' & Hs').
    { intros stream ts m Hin. rewrite Hm. eapply Hkeys, list_elem_of_further, Hin. }
    { intros stream ts m Hin. eapply Hsub, list_elem_of_further, Hin. }
    rewrite Hm', Hi', Hf', Hs', Hm, Hi, Hf, Hs.
    repeat split. unfold count_malformed. cbn.
    pose proof (filter_length_le
                  (fun e => match e with Malformed _ => true | _ => false end) es).
    destruct e; cbn; lia.
Qed.

Lemma import_entries_malformed (known : list string) (es : list Entry)
    (acc : Progress) :
  p_malformed (import_entries known es acc) =
  (p_malformed acc + count_malformed es)%nat.
Proof.
  revert acc. induction es as [|e es IH]; intros acc; cbn.
  - unfold count_malformed. cbn. lia.
  - rewrite IH. unfold count_malformed. destruct e as [stream ts m|raw]; cbn.
    + destruct (p_messages acc !! (stream, ts)); cbn; lia.
    + lia.
Qed.

(** C4: import is idempotent.  Running the import of the same archive a
    second time after a run that succeeded succeeds again, inserts no
    message, counts no malformed entry the first run had not counted, finds
    no new subtype, and leaves the Messages collection as the first run
    left it. *)
Theorem import_twice (container : string -> option (list Entry))
    (archivePath : string) (s s1 : Store) (b1 : ImportBatch) (new1 : list string) :
  import container archivePath s = inr (s1, (b1, new1)) ->
  exists (s2 : Store) (b2 : ImportBatch),
    import container archivePath s1 = inr (s2, (b2, [])) /\
    inserted b2 = 0%nat /\
    malformed b2 = malformed b1 /\
    new_subtypes b2 = [] /\
    Messages s2 = Messages s1 /\
    ImportBatches s2 = ImportBatches s1 ++ [b2].
Proof.
  unfold import. destruct (container archivePath) as [es|]; [|done].
  intros Hrun. injection Hrun as <- <- <-.
  set (first := import_entries (known_subtypes s) es
                  (mkProgress (Messages s) 0 0 0 [])).
  set (s1 := mkStore (p_messages first) _).
  destruct (import_entries_replay (known_subtypes s1) es
              (mkProgress (Messages s1) 0 0 0 [])) as (Hm & Hi & Hf & _).
  { apply import_entries_present. }
  { unfold known_subtypes, s1. cbn [ImportBatches].
    rewrite map_app, concat_app. cbn. rewrite app_nil_r.
    apply import_entries_subtypes. }
  cbn [p_messages p_inserted p_fresh] in Hm, Hi, Hf.
  eexists _, _. split; [by rewrite Hf|].
  cbn [inserted malformed new_subtypes Messages ImportBatches].
  rewrite Hm, Hi, import_entries_malformed.
  unfold first. rewrite import_entries_malformed. by cbn.
Qed.

Lemma import_twice_witness :
  exists (s1 : Store) (b1 : ImportBatch) (new1 : list string),
    import sample_archive "export.zip" (mkStore ∅ []) = inr (s1, (b1, new1)) /\
    inserted b1 = 2%nat /\
    exists (s2 : Store) (b2 : ImportBatch),
      import sample_archive "export.zip" s1 = inr (s2, (b2, [])) /\
      inserted b2 = 0%nat /\ Messages s2 = Messages s1.
Proof.
  eexists _, _, _. split; [reflexivity|]. split; [(vm_compute; done)|].
  destruct (import_twice sample_archive "export.zip" (mkStore ∅ []) _ _ _ eq_refl)
    as (s2 & b2 & Hrun & Hins & _ & _ & Hmsg & _).
  by exists s2, b2.
Defined.

End ArchiveCoreFacts.

(** * More of the web layer *)

Section WebServerMore.

Variable B : Backend.
Variable cfg : Config.

Ltac step :=
  unfold search, browse, logout, report_access_denied, tokens_get, tokens_known,
    archive_read, archive_write, insert_one, time_time, emit, lift, bind,
    ret, raise, plain, _redirect_page, _basic_page;
  cbn [fst snd tokens archive logs clock local_archive trace].

Ltac events :=
  rewrite <- ?app_assoc; cbn [app]; rewrite ?events_since_app.

(** A search in a stream the user may not read is answered with the
    access-denied page: the refusal goes to the z_access log with the
    request's url, and no message is read. *)
Theorem search_access_denied (r : Request) (w : World B) (u : UserInfo) (page : Z) :
  arg r "q" <> EmptyString ->
  arg r "s" <> EmptyString ->
  tokens_getitem B (tokens B w) (cookies r !! "auth") = Some u ->
  int_arg B r "p" = inr page ->
  has_stream_access B (archive B w) u (arg r "s") = false ->
  let out := search B r w in
  (exists html, fst out = inr (mkResponse B (BasicPage B "Access denied" html) [])) /\
  archive_calls (events_since B w (snd out)) =
    [HasStreamAccess u (arg r "s") false] /\
  logs B (snd out) !! "z_access" =
    Some (default [] (logs B w !! "z_access") ++
          [[("_id", FTime (clock B w)); ("user", FStr (login u));
            ("page", FStr (url r))]]).
Proof.
  intros Hq Hs Hu Hp Hacc out. subst out. step. rewrite Hu, Hp.
  destruct (String.eqb_spec (arg r "q") EmptyString) as [|_]; [done|].
  destruct (String.eqb_spec (arg r "s") EmptyString) as [|_]; [done|].
  cbn. rewrite Hacc. cbn. rewrite Hu. cbn.
  split; [by eexists|]. split; [by events|].
  rewrite lookup_insert_eq, lookup_insert_ne by done. done.
Qed.

(** Browsing a stream shows its messages exactly when [has_stream_access]
    grants it; otherwise the access-denied page is returned and
    [stream_messages] is not called. *)
Theorem browse_stream (r : Request) (w : World B) (u : UserInfo) (page : Z) :
  arg r "s" <> EmptyString ->
  tokens_getitem B (tokens B w) (cookies r !! "auth") = Some u ->
  int_arg B r "p" = inr page ->
  let out := browse B r w in
  let s := arg r "s" in
  let found := stream_messages B (archive B w) s page in
  if has_stream_access B (archive B w) u s
  then fst out = inr (mkResponse B
                        (StreamPage B (fst found) (snd found) s page
                           (MESSAGES_NUMBER_PER_STREAM_REQUEST B)) []) /\
       archive_calls (events_since B w (snd out)) =
         [HasStreamAccess u s true; StreamMessages s page]
  else (exists html,
          fst out = inr (mkResponse B (BasicPage B "Access denied" html) [])) /\
       archive_calls (events_since B w (snd out)) = [HasStreamAccess u s false].
Proof.
  intros Hs Hu Hp out s found. subst out s found. step. rewrite Hu, Hp.
  destruct (String.eqb_spec (arg r "s") EmptyString) as [|_]; [done|].
  cbn. destruct (has_stream_access B (archive B w) u (arg r "s")); cbn.
  - destruct (stream_messages B (archive B w) (arg r "s") page). cbn.
    split; [done|]. by events.
  - rewrite Hu. cbn. split; [by eexists|]. by events.
Qed.

(** A search inside a stream the user may read returns what
    [find_messages_in_stream] finds for the query text in that stream. *)
Theorem search_in_stream (r : Request) (w : World B) (u : UserInfo) (page : Z) :
  arg r "q" <> EmptyString ->
  arg r "s" <> EmptyString ->
  arg r "c" = EmptyString ->
  tokens_getitem B (tokens B w) (cookies r !! "auth") = Some u ->
  int_arg B r "p" = inr page ->
  has_stream_access B (archive B w) u (arg r "s") = true ->
  let out := search B r w in
  let found := find_messages_in_stream B (archive B w) (arg r "q") (arg r "s") page in
  fst out = inr (mkResponse B
                   (SearchPage B (fst found) (snd found) (arg r "q") (arg r "s")
                      EmptyString page (MESSAGES_NUMBER_PER_SEARCH_REQUEST B)) []) /\
  archive_calls (events_since B w (snd out)) =
    [HasStreamAccess u (arg r "s") true;
     FindMessagesInStream (arg r "q") (arg r "s") page].
Proof.
  intros Hq Hs Hc Hu Hp Hacc out found. subst out found. step.
  rewrite Hu, Hp, Hc.
  destruct (String.eqb_spec (arg r "q") EmptyString) as [|_]; [done|].
  destruct (String.eqb_spec (arg r "s") EmptyString) as [|_]; [done|].
  cbn. rewrite Hacc. cbn.
  destruct (find_messages_in_stream B (archive B w) (arg r "q") (arg r "s") page).
  cbn. split; [done|]. by events.
Qed.

(** A search that names neither a stream nor a context runs over the ids
    of the three partitions [filter_streams] returns for the filter all, in
    the order public, private, direct; the filter name is dropped. *)
Theorem search_everywhere (r : Request) (w : World B) (u : UserInfo) (page : Z) :
  arg r "q" <> EmptyString ->
  arg r "s" = EmptyString ->
  arg r "c" = EmptyString ->
  tokens_getitem B (tokens B w) (cookies r !! "auth") = Some u ->
  int_arg B r "p" = inr page ->
  let out := search B r w in
  let ids := all_stream_ids B (archive B w) u in
  let found := find_messages B (archive B w) (arg r "q") ids page in
  fst out = inr (mkResponse B
                   (SearchPage B (fst found) (snd found) (arg r "q") EmptyString
                      EmptyString page (MESSAGES_NUMBER_PER_SEARCH_REQUEST B)) []) /\
  archive_calls (events_since B w (snd out)) =
    [FilterStreams u "all"; FindMessages (arg r "q") ids page].
Proof.
  intros Hq Hs Hc Hu Hp out ids found. subst out ids found. step.
  rewrite Hu, Hp, Hs, Hc.
  destruct (String.eqb_spec (arg r "q") EmptyString) as [|_]; [done|].
  cbn. unfold all_stream_ids.
  destruct (filter_streams B (archive B w) u "all")
    as [[[public private] direct] f].
  cbn.
  destruct (find_messages B (archive B w) (arg r "q")
              (map (stream_id B) (public ++ private ++ direct)) page).
  cbn. split; [done|]. by events.
Qed.

(** A page argument that is not an integer fails [search] and [browse]
    with a ValueError before the request is logged: no log collection, and
    nothing of the archive, is touched. *)
Theorem bad_page_fails_before_logging (r : Request) (w : World B) (u : UserInfo)
    (text : string) :
  tokens_getitem B (tokens B w) (cookies r !! "auth") = Some u ->
  args r !! "p" = Some text ->
  parse_int B text = None ->
  (fst (search B r w) = inl (ValueError text) /\
   logs B (snd (search B r w)) = logs B w /\
   events_since B w (snd (search B r w)) = [TokensGet (cookies r !! "auth")]) /\
  (fst (browse B r w) = inl (ValueError text) /\
   logs B (snd (browse B r w)) = logs B w /\
   events_since B w (snd (browse B r w)) = [TokensGet (cookies r !! "auth")]).
Proof.
  intros Hu Hp Hparse. step. unfold int_arg. rewrite Hu, Hp, Hparse. cbn.
  repeat split; by events.
Qed.

(** The handlers that need the user ([search], [browse], [logout]) fail
    with a KeyError when the auth cookie is not in the token store, before
    anything is written. *)
Theorem unknown_user_fails_before_writing (r : Request) (w : World B) :
  tokens_getitem B (tokens B w) (cookies r !! "auth") = None ->
  forall h, h = search B \/ h = browse B \/ h = logout B ->
    fst (h r w) = inl (KeyError (cookies r !! "auth")) /\
    logs B (snd (h r w)) = logs B w /\
    tokens B (snd (h r w)) = tokens B w /\
    archive B (snd (h r w)) = archive B w /\
    events_since B w (snd (h r w)) = [TokensGet (cookies r !! "auth")].
Proof.
  intros Hu h [-> | [-> | ->]]; step; rewrite Hu; cbn; repeat split; by events.
Qed.

(** ** The two [before_request] functions *)

Lemma replace_first_unfold (old new s : string) :
  replace_first old new s =
  if String.prefix old s
  then new +:+ String.substring (String.length old)
                 (String.length s - String.length old) s
  else match s with
       | EmptyString => EmptyString
       | String c s' => String c (replace_first old new s')
       end.
Proof. by destruct s. Qed.

Lemma prefix_app (old rest : string) : String.prefix old (old +:+ rest) = true.
Proof.
  induction old as [|c old IH].
  - change (EmptyString +:+ rest) with rest. by destruct rest.
  - change (String c old +:+ rest) with (String c (old +:+ rest)).
    cbn [String.prefix]. destruct (ascii_dec c c); [done|congruence].
Qed.

Lemma substring_all (s : string) : String.substring 0 (String.length s) s = s.
Proof. induction s as [|c s IH]; cbn; [done|]. by rewrite IH. Qed.

Lemma substring_app_tail (old rest : string) :
  String.substring (String.length old)
    (String.length (old +:+ rest) - String.length old) (old +:+ rest) = rest.
Proof.
  induction old as [|c old IH].
  - change (EmptyString +:+ rest) with rest. cbn [String.length].
    rewrite Nat.sub_0_r. apply substring_all.
  - change (String c old +:+ rest) with (String c (old +:+ rest)).
    cbn [String.length String.substring Nat.sub]. exact IH.
Qed.

(** [s.replace(old, new, 1)] on a string that starts with [old]. *)
Lemma replace_first_prefix (old new rest : string) :
  replace_first old new (old +:+ rest) = new +:+ rest.
Proof.
  rewrite replace_first_unfold, prefix_app. by rewrite substring_app_tail.
Qed.

(** [s.replace(old, new, 1)] on a string [old] does not occur in. *)
Lemma replace_first_absent (old new s : string) :
  String.index 0 old s = None -> replace_first old new s = s.
Proof.
  induction s as [|c s IH]; intros Hidx.
  - destruct old; [done|]. by cbn.
  - rewrite replace_first_unfold. cbn [String.index] in Hidx.
    destruct (String.prefix old (String c s)); [done|].
    rewrite IH; [done|]. by destruct (String.index 0 old s).
Qed.

(** In production a request that a proxy marks as plain http is sent to
    the same address under https with a 301, before authentication is looked
    at and before any handler: nothing is called and the world is as it
    was. *)
Theorem forwarded_http_goes_to_https (r : Request) (w : World B) (rest : string) :
  is_production cfg = true ->
  headers r !! "X-Forwarded-Proto" = Some "http" ->
  url r = "http://" +:+ rest ->
  handle B cfg r w =
    (inr (mkResponse B (Redirect B ("https://" +:+ rest) 301) []), w).
Proof.
  intros Hprod Hhdr Hurl.
  rewrite (handle_https_first B cfg r w).
  - by rewrite Hurl, replace_first_prefix.
  - rewrite Hprod, Hhdr, bool_decide_eq_true_2 by done.
    by rewrite orb_true_r.
Qed.

(** In production a request that flask reports as secure is redirected
    too, whatever its path and cookie, and no handler runs; when its url has
    no http:// in it the 301 points at the very url that was requested. *)
Theorem secure_request_redirected_to_itself (r : Request) (w : World B) :
  is_production cfg = true ->
  is_secure r = true ->
  String.index 0 "http://" (url r) = None ->
  handle B cfg r w = (inr (mkResponse B (Redirect B (url r) 301) []), w).
Proof.
  intros Hprod Hsec Hidx.
  rewrite (handle_https_first B cfg r w).
  - by rewrite replace_first_absent.
  - by rewrite Hprod, Hsec.
Qed.

(** A request that [_redirect_to_https] lets pass reaches its route when
    the user is known, when the path is /login, or when the path names a
    file of the static folder; the only call made before the route is
    [is_known_user]. *)
Theorem check_auth_lets_through (r : Request) (w : World B) :
  (is_secure r || bool_decide (headers r !! "X-Forwarded-Proto" = Some "http"))
  && is_production cfg = false ->
  is_known_user B (tokens B w) (cookies r !! "auth") = true \/
  path r = "/login" \/
  isfile_static B (tail_str (path r)) = true ->
  handle B cfg r w =
    route B cfg r
      (mkWorld B (tokens B w) (archive B w) (logs B w) (clock B w)
         (local_archive B w) (trace B w ++ [TokensIsKnown (cookies r !! "auth")])).
Proof.
  intros Hpass Hfree.
  unfold handle, _redirect_to_https, _check_auth. step. rewrite Hpass. cbn.
  destruct (is_known_user B (tokens B w) (cookies r !! "auth")); [done|].
  destruct Hfree as [|[Hpath|Hfile]]; [done| |].
  - by rewrite Hpath.
  - by rewrite Hfile, orb_true_r.
Qed.

(** ** What a route leaves alone *)

Section Keeps.

Context {X : Type} (f : World B -> X) (Hf : log_blind B f).

Lemma keeps_ret {A} (a : A) : keeps B f (ret B a).
Proof. by intros w. Qed.

Lemma keeps_raise {A} (e : Exc) : keeps B f (@raise B A e).
Proof. by intros w. Qed.

Lemma keeps_lift {A} (x : Exc + A) : keeps B f (lift B x).
Proof. by intros w. Qed.

Lemma keeps_time : keeps B f (time_time B).
Proof. by intros w. Qed.

Lemma keeps_emit (ev : Event) : keeps B f (emit B ev).
Proof. intros w. apply Hf. Qed.

Lemma keeps_insert_one (coll : string) (doc : Doc) :
  keeps B f (insert_one B coll doc).
Proof. intros w. apply Hf. Qed.

Lemma keeps_archive_read {A} (ev : A -> Event) (g : archive_db B -> A) :
  keeps B f (archive_read B ev g).
Proof. intros w. apply Hf. Qed.

Lemma keeps_bind {A C} (m : M B A) (k : A -> M B C) :
  keeps B f m -> (forall a, keeps B f (k a)) -> keeps B f (bind B m k).
Proof.
  intros Hm Hk w. unfold bind. specialize (Hm w).
  destruct (m w) as [[e|a] w']; cbn in *; [done|].
  by rewrite Hk.
Qed.

Lemma keeps_tokens_get (key : option string) : keeps B f (tokens_get B key).
Proof.
  apply keeps_bind; [apply keeps_emit|]. intros _ w.
  by destruct (tokens_getitem B (tokens B w) key).
Qed.

Lemma keeps_tokens_known (key : option string) : keeps B f (tokens_known B key).
Proof. apply keeps_bind; [apply keeps_emit|]. by intros _ w. Qed.

End Keeps.

Ltac frame :=
  repeat first
    [ apply keeps_ret | apply keeps_raise | apply keeps_lift | apply keeps_time
    | apply keeps_emit; done
    | apply keeps_insert_one; done
    | apply keeps_archive_read; done
    | apply keeps_tokens_get; done
    | apply keeps_tokens_known; done
    | apply keeps_bind; [|intros ?]
    | match goal with
      | |- keeps _ _ (if ?b then _ else _) => destruct b
      | |- keeps _ _ (match ?x with _ => _ end) => destruct x
      end ].

Ltac leaf :=
  intros ?; unfold archive_write;
  repeat match goal with
         | |- context [match ?x with _ => _ end] => destruct x
         end; reflexivity.

Ltac routes :=
  unfold handle, _redirect_to_https, _check_auth, route,
    index, users, stat_page, login_page, _login_oauth, _login_with_token,
    _login_success, cookies_expire_date, logout, search, browse,
    report_access_denied, upload, import_db, send_file.

(** Only /login and /import_db change the archive: a request for any other
    path leaves the archive database exactly as it was, whoever asks and
    whatever the answer. *)
Theorem archive_changed_only_by_login_and_import (r : Request) (w : World B) :
  path r <> "/login" ->
  path r <> "/import_db" ->
  archive B (snd (handle B cfg r w)) = archive B w.
Proof.
  intros Hlogin Himport. revert w.
  change (keeps B (archive B) (handle B cfg r)).
  unfold handle, _redirect_to_https, _check_auth, route.
  destruct (String.eqb_spec (path r) "/login") as [|_]; [done|].
  destruct (String.eqb_spec (path r) "/import_db") as [|_]; [done|].
  routes. frame; leaf.
Qed.

(** Only /login and /logout change the token store. *)
Theorem tokens_changed_only_by_login_and_logout (r : Request) (w : World B) :
  path r <> "/login" ->
  path r <> "/logout" ->
  tokens B (snd (handle B cfg r w)) = tokens B w.
Proof.
  intros Hlogin Hlogout. revert w.
  change (keeps B (tokens B) (handle B cfg r)).
  unfold handle, _redirect_to_https, _check_auth, route.
  destruct (String.eqb_spec (path r) "/login") as [|_]; [done|].
  destruct (String.eqb_spec (path r) "/logout") as [|_]; [done|].
  routes. frame; leaf.
Qed.

(** ** Logging in and out *)

Ltac step_login :=
  unfold login_page, _login_oauth, _login_with_token, _login_success,
    cookies_expire_date;
  step.

(** When the code exchange fails with a Slack error, the error goes to the
    z_errors log under the context oauth and onto the page; [auth.test] is
    not called, no credential is stored and no cookie is set. *)
Theorem login_oauth_error (r : Request) (w : World B) (err : string) :
  arg r "code" <> EmptyString ->
  oauth_access B (SLACK_CLIENT_ID cfg) (SLACK_CLIENT_SECRET cfg)
    (arg r "code") (url_for B cfg "login") = ApiError err ->
  let doc := [("_id", FTime (clock B w)); ("ctx", FStr "oauth");
              ("msg", FStr err)] in
  login_page B cfg r w =
    (inr (mkResponse B (BasicPage B "OAuth error" ("OAuth error: " +:+ err)) []),
     mkWorld B (tokens B w) (archive B w)
       (<["z_errors" := default [] (logs B w !! "z_errors") ++ [doc]]> (logs B w))
       (clock B w) (local_archive B w)
       (trace B w ++ [OauthAccess (arg r "code") (url_for B cfg "login");
                      LogInsert "z_errors" doc])).
Proof.
  intros Hcode Herr doc. subst doc. step_login.
  destruct (String.eqb_spec (arg r "code") EmptyString) as [|_]; [done|].
  cbn. rewrite Herr. cbn. by rewrite <- app_assoc.
Qed.

(** When [auth.test] fails with a Slack error for the token just obtained,
    the error goes to the z_errors log under the context auth.test and onto
    the page; no credential is stored and no cookie is set. *)
Theorem login_auth_error (r : Request) (w : World B) (oauth : OAuth) (err : string) :
  arg r "code" <> EmptyString ->
  oauth_access B (SLACK_CLIENT_ID cfg) (SLACK_CLIENT_SECRET cfg)
    (arg r "code") (url_for B cfg "login") = ApiOk oauth ->
  auth_test B (access_token oauth) = ApiError err ->
  let doc := [("_id", FTime (clock B w)); ("ctx", FStr "auth.test");
              ("msg", FStr err)] in
  login_page B cfg r w =
    (inr (mkResponse B (BasicPage B "Auth error" ("Auth error: " +:+ err)) []),
     mkWorld B (tokens B w) (archive B w)
       (<["z_errors" := default [] (logs B w !! "z_errors") ++ [doc]]> (logs B w))
       (clock B w) (local_archive B w)
       (trace B w ++ [OauthAccess (arg r "code") (url_for B cfg "login");
                      AuthTest (access_token oauth);
                      LogInsert "z_errors" doc])).
Proof.
  intros Hcode Hoauth Herr doc. subst doc. step_login.
  destruct (String.eqb_spec (arg r "code") EmptyString) as [|_]; [done|].
  cbn. rewrite Hoauth. cbn. rewrite Herr. cbn. by rewrite <- !app_assoc.
Qed.

(** A token of another team is turned away with a page naming that team;
    unlike the two Slack errors this refusal is logged nowhere, and the
    stores are as they were. *)
Theorem login_wrong_team (r : Request) (w : World B) (oauth : OAuth) (au : ApiAuth) :
  arg r "code" <> EmptyString ->
  oauth_access B (SLACK_CLIENT_ID cfg) (SLACK_CLIENT_SECRET cfg)
    (arg r "code") (url_for B cfg "login") = ApiOk oauth ->
  auth_test B (access_token oauth) = ApiOk au ->
  team_id au <> SLACK_TEAM_ID cfg ->
  login_page B cfg r w =
    (inr (mkResponse B (BasicPage B "Wrong team" ("Wrong team: " +:+ team au)) []),
     mkWorld B (tokens B w) (archive B w) (logs B w) (clock B w)
       (local_archive B w)
       (trace B w ++ [OauthAccess (arg r "code") (url_for B cfg "login");
                      AuthTest (access_token oauth)])).
Proof.
  intros Hcode Hoauth Hau Hteam. step_login.
  destruct (String.eqb_spec (arg r "code") EmptyString) as [|_]; [done|].
  cbn. rewrite Hoauth. cbn. rewrite Hau.
  destruct (String.eqb_spec (team_id au) (SLACK_TEAM_ID cfg)) as [|_]; [done|].
  cbn. by rewrite <- app_assoc.
Qed.

(** The cookie a successful login sets opens the door: provided the token
    store knows the key it has just handed out, a following request that
    carries that cookie passes [_check_auth], whatever its path. *)
Theorem login_cookie_is_accepted (r next : Request) (w : World B)
    (oauth : OAuth) (au : ApiAuth) :
  arg r "code" <> EmptyString ->
  login_grant B cfg r = Some (oauth, au) ->
  let upserted :=
    tokens_upsert B (tokens B w) (access_token oauth) au
      (negb (str_count ","%char (scope oauth) =? 1)) in
  is_known_user B (fst upserted) (Some (snd upserted)) = true ->
  cookies next !! "auth" = Some (snd upserted) ->
  let out := login_page B cfg r w in
  (exists expires,
     fst out = inr (mkResponse B (Redirect B "/browse" 302)
                      [CookieSet "auth" (snd upserted) expires])) /\
  fst (_check_auth B next (snd out)) = inr None.
Proof.
  intros Hcode Hgrant upserted Hknown Hcookie out. subst out.
  rewrite (login_page_granted B cfg r w oauth au Hcode Hgrant).
  fold upserted. cbn [fst snd]. split; [by eexists|].
  unfold _check_auth. step. by rewrite Hcookie, Hknown.
Qed.

(** Logging out removes the credential and the cookie: the answer deletes
    the auth cookie, the logout is recorded in z_logouts, the token store is
    what [del self.tokens[key]] leaves, and, provided the store no longer
    knows a key it has deleted, a following request with the old cookie for
    a protected path is sent to the login page. *)
Theorem logout_closes_the_door (r next : Request) (w : World B)
    (u : UserInfo) (db : token_db B) :
  tokens_getitem B (tokens B w) (cookies r !! "auth") = Some u ->
  tokens_delitem B (tokens B w) (cookies r !! "auth") = Some db ->
  is_known_user B db (cookies r !! "auth") = false ->
  cookies next = cookies r ->
  path next <> "/login" ->
  isfile_static B (tail_str (path next)) = false ->
  let out := logout B r w in
  fst out = inr (mkResponse B (RedirectPage B "https://slack.com" "Bye")
                   [CookieDelete "auth"]) /\
  tokens B (snd out) = db /\
  archive B (snd out) = archive B w /\
  logged B "z_logouts" w (snd out) =
    [[("_id", FTime (clock B w)); ("user", FStr (login u))]] /\
  fst (_check_auth B next (snd out)) =
    inr (Some (mkResponse B (RedirectPage B "/login" "Auth required") [])).
Proof.
  intros Hu Hdel Hgone Hcookie Hpath Hfile out. subst out.
  unfold _check_auth, logged. step. rewrite Hu. cbn. rewrite Hdel. cbn.
  rewrite Hcookie, Hgone, Hfile.
  destruct (String.eqb_spec (path next) "/login") as [|_]; [done|].
  cbn. repeat split; try done.
  rewrite lookup_insert_eq. cbn. by rewrite drop_app_length.
Qed.

(** ** Uploading an archive *)

Lemma append_cons (c : ascii) (a b : string) :
  String c a +:+ b = String c (a +:+ b).
Proof. reflexivity. Qed.

Lemma length_append (a b : string) :
  String.length (a +:+ b) = (String.length a + String.length b)%nat.
Proof.
  induction a as [|c a IH]; [done|].
  rewrite append_cons. cbn [String.length]. by rewrite IH.
Qed.

Lemma substring_append_tail (p suffix : string) :
  String.substring (String.length p) (String.length suffix) (p +:+ suffix)
  = suffix.
Proof.
  induction p as [|c p IH]; [apply substring_all|].
  rewrite append_cons. cbn [String.length String.substring]. exact IH.
Qed.

Lemma substring_split (s : string) (m : nat) :
  (m <= String.length s)%nat ->
  s = String.substring 0 m s +:+
      String.substring m (String.length s - m) s.
Proof.
  revert m. induction s as [|c s IH]; intros m Hm.
  - cbn in Hm. assert (m = 0%nat) as -> by lia. done.
  - destruct m as [|m].
    + cbn [String.length Nat.sub String.substring]. by rewrite substring_all.
    + cbn [String.length Nat.sub String.substring]. rewrite append_cons.
      f_equal. apply IH. cbn in Hm. lia.
Qed.

(** [s.endswith(suffix)] holds exactly of the strings that are something
    followed by the suffix. *)
Lemma endswith_iff (s suffix : string) :
  endswith s suffix = true <-> exists stem, s = stem +:+ suffix.
Proof.
  unfold endswith. rewrite andb_true_iff, Nat.leb_le, String.eqb_eq. split.
  - intros [Hle Hsub].
    exists (String.substring 0 (String.length s - String.length suffix) s).
    pose proof (substring_split s (String.length s - String.length suffix)
                  ltac:(lia)) as Hsplit.
    replace (String.length s - (String.length s - String.length suffix))%nat
      with (String.length suffix) in Hsplit by lia.
    by rewrite Hsub in Hsplit.
  - intros [stem ->]. rewrite length_append. split; [lia|].
    replace (String.length stem + String.length suffix - String.length suffix)%nat
      with (String.length stem) by lia.
    apply substring_append_tail.
Qed.

(** Outside production an uploaded file whose name ends in .zip replaces
    the local archive file, and the answer leads on to /import_db; no user,
    log or archive collection is involved. *)
Theorem upload_saves_zip (r : Request) (w : World B) (zip : Upload) (stem : string) :
  is_production cfg = false ->
  files r !! "archive" = Some zip ->
  filename zip = stem +:+ ".zip" ->
  upload B cfg r w =
    (inr (mkResponse B (RedirectPage B "/import_db" (filename zip +:+ " saved")) []),
     mkWorld B (tokens B w) (archive B w) (logs B w) (clock B w) (Some zip)
       (trace B w ++ [SaveArchive (filename zip)])).
Proof.
  intros Hprod Hfile Hname. unfold upload. step. rewrite Hprod, Hfile.
  by rewrite (proj2 (endswith_iff (filename zip) ".zip")) by eauto.
Qed.

(** Outside production a request without a file, or with a file whose name
    does not end in .zip, gets the upload form back and changes nothing. *)
Theorem upload_ignores_other_files (r : Request) (w : World B) :
  is_production cfg = false ->
  (forall zip stem,
     files r !! "archive" = Some zip -> filename zip <> stem +:+ ".zip") ->
  upload B cfg r w =
    (inr (mkResponse B (BasicPage B "Archive upload" upload_form) []), w).
Proof.
  intros Hprod Hnot. unfold upload. step. rewrite Hprod.
  destruct (files r !! "archive") as [zip|] eqn:Hfile; [|done].
  destruct (endswith (filename zip) ".zip") eqn:Hends; [|done].
  apply endswith_iff in Hends as [stem Hstem].
  by destruct (Hnot zip stem).
Qed.

(** ** The request logs *)

(** Every search of a known user with a well-formed page is recorded in
    z_search exactly once, with the user's login and the query text as
    given, whatever comes of it: an empty query, a refusal or a result. *)
Theorem search_logged_once (r : Request) (w : World B) (u : UserInfo) (page : Z) :
  tokens_getitem B (tokens B w) (cookies r !! "auth") = Some u ->
  int_arg B r "p" = inr page ->
  logged B "z_search" w (snd (search B r w)) =
    [[("_id", FTime (clock B w)); ("user", FStr (login u));
      ("q", FStr (arg r "q"))]].
Proof.
  intros Hu Hp. unfold logged. step. rewrite Hu, Hp. cbn.
  destruct (String.eqb (arg r "q") EmptyString); cbn;
    [by rewrite lookup_insert_eq; cbn; rewrite drop_app_length|].
  destruct (String.eqb (arg r "s") EmptyString); cbn.
  - destruct (String.eqb (arg r "c") EmptyString); cbn.
    + destruct (filter_streams B (archive B w) u "all") as [[[? ?] ?] ?]. cbn.
      destruct (find_messages B _ _ _ _). cbn.
      by rewrite lookup_insert_eq; cbn; rewrite drop_app_length.
    + destruct (find_messages_around B _ _ _ _). cbn.
      by rewrite lookup_insert_eq; cbn; rewrite drop_app_length.
  - destruct (has_stream_access B (archive B w) u (arg r "s")); cbn.
    + destruct (String.eqb (arg r "c") EmptyString); cbn.
      * destruct (find_messages_in_stream B _ _ _ _). cbn.
        by rewrite lookup_insert_eq; cbn; rewrite drop_app_length.
      * destruct (find_messages_around B _ _ _ _). cbn.
        by rewrite lookup_insert_eq; cbn; rewrite drop_app_length.
    + rewrite Hu. cbn. rewrite lookup_insert_ne by done.
      by rewrite lookup_insert_eq; cbn; rewrite drop_app_length.
Qed.

(** Every browse request of a known user with a well-formed page is
    recorded in z_browse exactly once, with the stream asked for (empty for
    the listing), before access to the stream is decided. *)
Theorem browse_logged_once (r : Request) (w : World B) (u : UserInfo) (page : Z) :
  tokens_getitem B (tokens B w) (cookies r !! "auth") = Some u ->
  int_arg B r "p" = inr page ->
  logged B "z_browse" w (snd (browse B r w)) =
    [[("_id", FTime (clock B w)); ("user", FStr (login u));
      ("s", FStr (arg r "s"))]].
Proof.
  intros Hu Hp. unfold logged. step. rewrite Hu, Hp. cbn.
  destruct (String.eqb (arg r "s") EmptyString); cbn.
  - destruct (filter_streams B (archive B w) u _) as [[[? ?] ?] ?]. cbn.
    by rewrite lookup_insert_eq; cbn; rewrite drop_app_length.
  - destruct (has_stream_access B (archive B w) u (arg r "s")); cbn.
    + destruct (stream_messages B _ _ _). cbn.
      by rewrite lookup_insert_eq; cbn; rewrite drop_app_length.
    + rewrite Hu. cbn. rewrite lookup_insert_ne by done.
      by rewrite lookup_insert_eq; cbn; rewrite drop_app_length.
Qed.

End WebServerMore.

(** * More concrete runs *)

Module MoreRuns.

Import Demo.

Ltac run_it := vm_compute; first [reflexivity | discriminate | done].

Lemma search_access_denied_witness :
  has_stream_access backend (archive backend world) bob (arg denied_search "s")
  = false /\
  archive_calls
    (events_since backend world (snd (search backend denied_search world))) =
    [HasStreamAccess bob (arg denied_search "s") false].
Proof.
  split; [run_it|].
  apply (search_access_denied backend denied_search world bob 0); run_it.
Defined.

Lemma browse_stream_witness :
  arg secret_browse "s" = "secret" /\
  archive_calls
    (events_since backend world (snd (browse backend secret_browse world))) =
    [HasStreamAccess bob (arg secret_browse "s") false].
Proof.
  split; [run_it|].
  pose proof (browse_stream backend secret_browse world bob 0
                ltac:(run_it) ltac:(run_it) ltac:(run_it)) as H.
  cbv zeta in H.
  assert (has_stream_access backend (archive backend world) bob
            (arg secret_browse "s") = false) as E by run_it.
  rewrite E in H. exact (proj2 H).
Defined.

Lemma search_in_stream_witness :
  has_stream_access backend (archive backend world) bob (arg stream_search "s")
  = true /\
  archive_calls
    (events_since backend world (snd (search backend stream_search world))) =
    [HasStreamAccess bob (arg stream_search "s") true;
     FindMessagesInStream (arg stream_search "q") (arg stream_search "s") 0].
Proof.
  split; [run_it|].
  apply (search_in_stream backend stream_search world bob 0); run_it.
Defined.

Lemma search_everywhere_witness :
  arg global_search "s" = EmptyString /\
  archive_calls
    (events_since backend world (snd (search backend global_search world))) =
    [FilterStreams alice "all";
     FindMessages (arg global_search "q")
       (all_stream_ids backend (archive backend world) alice) 0].
Proof.
  split; [run_it|].
  apply (search_everywhere backend global_search world alice 0); run_it.
Defined.

Lemma bad_page_fails_before_logging_witness :
  parse_int backend "two" = None /\
  fst (search backend bad_page_search world) = inl (ValueError "two") /\
  logs backend (snd (search backend bad_page_search world)) = logs backend world.
Proof.
  split; [run_it|].
  destruct (bad_page_fails_before_logging backend bad_page_search world alice "two"
              ltac:(run_it) ltac:(run_it) ltac:(run_it))
    as [(Hfail & Hlogs & _) _].
  by split.
Defined.

Lemma unknown_user_fails_before_writing_witness :
  tokens_getitem backend (tokens backend world) (cookies stranger_search !! "auth")
  = None /\
  fst (search backend stranger_search world) =
    inl (KeyError (cookies stranger_search !! "auth")).
Proof.
  split; [run_it|].
  apply (unknown_user_fails_before_writing backend stranger_search world
           ltac:(run_it) (search backend)).
  by left.
Defined.

Lemma forwarded_http_goes_to_https_witness :
  url forwarded_search = "http://" +:+ "slag.example/search" /\
  handle backend production forwarded_search world =
    (inr (mkResponse backend
            (Redirect backend ("https://" +:+ "slag.example/search") 301) []),
     world).
Proof.
  split; [run_it|].
  apply (forwarded_http_goes_to_https backend production forwarded_search world);
    run_it.
Defined.

Lemma secure_request_redirected_to_itself_witness :
  is_secure secure_browse = true /\
  handle backend production secure_browse world =
    (inr (mkResponse backend (Redirect backend (url secure_browse) 301) []), world).
Proof.
  split; [run_it|].
  apply (secure_request_redirected_to_itself backend production secure_browse world);
    run_it.
Defined.

Lemma check_auth_lets_through_witness :
  is_known_user backend (tokens backend world) (cookies login_visit !! "auth")
  = false /\
  handle backend development login_visit world =
    route backend development login_visit
      (mkWorld backend (tokens backend world) (archive backend world)
         (logs backend world) (clock backend world) (local_archive backend world)
         (trace backend world ++ [TokensIsKnown (cookies login_visit !! "auth")])).
Proof.
  split; [run_it|].
  apply (check_auth_lets_through backend development login_visit world);
    [run_it|].
  right. left. run_it.
Defined.

Lemma archive_changed_only_by_login_and_import_witness :
  path stat_request = "/stat" /\
  archive backend (snd (handle backend development stat_request world)) =
  archive backend world.
Proof.
  split; [run_it|].
  apply (archive_changed_only_by_login_and_import backend development
           stat_request world); run_it.
Defined.

Lemma tokens_changed_only_by_login_and_logout_witness :
  path import_request = "/import_db" /\
  tokens backend (snd (handle backend development import_request world)) =
  tokens backend world.
Proof.
  split; [run_it|].
  apply (tokens_changed_only_by_login_and_logout backend development
           import_request world); run_it.
Defined.

Lemma login_oauth_error_witness :
  arg expired_login "code" = "expired" /\
  fst (login_page backend development expired_login world) =
    inr (mkResponse backend
           (BasicPage backend "OAuth error" ("OAuth error: " +:+ "invalid_code")) []).
Proof.
  split; [run_it|].
  rewrite (login_oauth_error backend development expired_login world "invalid_code")
    by run_it.
  reflexivity.
Defined.

Lemma login_auth_error_witness :
  auth_test revoked "xoxp-1" = ApiError "token_revoked" /\
  fst (login_page revoked development basic_login revoked_world) =
    inr (mkResponse revoked
           (BasicPage revoked "Auth error" ("Auth error: " +:+ "token_revoked")) []).
Proof.
  split; [run_it|].
  rewrite (login_auth_error revoked development basic_login revoked_world
             (mkOAuth "xoxp-1" "identify,read") "token_revoked")
    by run_it.
  reflexivity.
Defined.

Lemma login_wrong_team_witness :
  auth_test backend "xoxp-2" = ApiOk (mkApiAuth "T2" "other" "bob") /\
  fst (login_page backend development advanced_login world) =
    inr (mkResponse backend
           (BasicPage backend "Wrong team"
              ("Wrong team: " +:+ team (mkApiAuth "T2" "other" "bob"))) []).
Proof.
  split; [run_it|].
  rewrite (login_wrong_team backend development advanced_login world
             (mkOAuth "xoxp-2" "identify,files:read,channels:read")
             (mkApiAuth "T2" "other" "bob"))
    by run_it.
  reflexivity.
Defined.

Lemma login_cookie_is_accepted_witness :
  cookies fresh_browse !! "auth" = Some "key-xoxp-1" /\
  fst (_check_auth backend fresh_browse
         (snd (login_page backend development basic_login world))) = inr None.
Proof.
  split; [run_it|].
  apply (login_cookie_is_accepted backend development basic_login fresh_browse world
           (mkOAuth "xoxp-1" "identify,read") (mkApiAuth "T1" "slag" "alice"));
    run_it.
Defined.

Lemma logout_closes_the_door_witness :
  is_known_user backend (delete "key-alice" (tokens backend world))
    (cookies logout_request !! "auth") = false /\
  fst (_check_auth backend listing (snd (logout backend logout_request world))) =
    inr (Some (mkResponse backend (RedirectPage backend "/login" "Auth required") [])).
Proof.
  split; [run_it|].
  apply (logout_closes_the_door backend logout_request listing world alice
           (delete "key-alice" (tokens backend world)));
    run_it.
Defined.

Lemma upload_saves_zip_witness :
  filename (mkUpload "export.zip" "PK") = "export" +:+ ".zip" /\
  local_archive backend (snd (upload backend development zip_upload world)) =
    Some (mkUpload "export.zip" "PK").
Proof.
  split; [run_it|].
  rewrite (upload_saves_zip backend development zip_upload world
             (mkUpload "export.zip" "PK") "export") by run_it.
  reflexivity.
Defined.

Lemma upload_ignores_other_files_witness :
  endswith "notes.txt" ".zip" = false /\
  snd (upload backend development text_upload world) = world.
Proof.
  split; [run_it|].
  rewrite (upload_ignores_other_files backend development text_upload world);
    [reflexivity|run_it|].
  intros zip stem Hfile Hname.
  assert (files text_upload !! "archive" = Some (mkUpload "notes.txt" "hello"))
    as E by run_it.
  rewrite E in Hfile. injection Hfile as <-. cbn [filename] in Hname.
  assert (endswith "notes.txt" ".zip" = true) as Hends
    by (apply endswith_iff; eauto).
  vm_compute in Hends. discriminate Hends.
Defined.

Lemma search_logged_once_witness :
  int_arg backend denied_search "p" = inr 0 /\
  logged backend "z_search" world (snd (search backend denied_search world)) =
    [[("_id", FTime (clock backend world)); ("user", FStr (login bob));
      ("q", FStr (arg denied_search "q"))]].
Proof.
  split; [run_it|].
  apply (search_logged_once backend denied_search world bob 0); run_it.
Defined.

Lemma browse_logged_once_witness :
  int_arg backend secret_browse "p" = inr 0 /\
  logged backend "z_browse" world (snd (browse backend secret_browse world)) =
    [[("_id", FTime (clock backend world)); ("user", FStr (login bob));
      ("s", FStr (arg secret_browse "s"))]].
Proof.
  split; [run_it|].
  apply (browse_logged_once backend secret_browse world bob 0); run_it.
Defined.

Lemma search_reads_gated_witness :
  arg stream_search "s" = "general" /\
  gated backend (archive backend world) bob []
    (events_since backend world (snd (search backend stream_search world)))
  = true.
Proof.
  split; [run_it|].
  apply (search_reads_gated backend stream_search world bob); [run_it|].
  left. run_it.
Defined.

Lemma browse_reads_gated_witness :
  tokens_getitem backend (tokens backend world) (cookies secret_browse !! "auth")
  = Some bob /\
  gated backend (archive backend world) bob []
    (events_since backend world (snd (browse backend secret_browse world)))
  = true.
Proof.
  split; [run_it|].
  apply (browse_reads_gated backend secret_browse world bob); run_it.
Defined.

Lemma only_login_fetches_witness :
  path stat_request <> "/login" /\
  calls_only backend not_streams_fetch (handle backend development stat_request).
Proof.
  split; [run_it|].
  apply (only_login_fetches backend development stat_request); run_it.
Defined.

Lemma production_never_imports_witness :
  is_production production = true /\
  calls_only backend not_import (handle backend production import_request).
Proof.
  split; [run_it|].
  apply (production_never_imports backend production import_request); run_it.
Defined.

End MoreRuns.
